(** * Eye-blink Morse communicator: codec, line interpreter, transports

    A shallow embedding of the protocol core of the web front end:
    - [Morse]: the codec of [web app v4.2/morse.js];
    - [Comm]:  the line interpreter, the manual-entry path and the two
               transport adapters of [web app v4.3/communication.js].

    JavaScript strings are modelled as [string]; a character stands for one
    code unit below 256 (the device protocol is ASCII); upper-casing, which
    can leave that range, yields a list of code units.  Objects used as
    lookup tables are modelled as association lists of their own entries, in
    insertion order, and a lookup falls back on the members inherited from
    [Object.prototype].  Module-level mutable variables become an explicit
    state record, DOM updates and the save call become an event trace. *)

From Stdlib Require Import String Ascii List Bool Arith Lia.
Import ListNotations.
Local Open Scope list_scope.
Local Open Scope string_scope.

(** ** The JavaScript string primitives the sources rely on *)

Module Js.

(** Values a caller may pass where a string is expected. *)
Inductive value : Type :=
| Undefined
| Null
| Boolean (b : bool)
| Number (n : nat)
| Str (s : string).

(** [\s] in a regular expression, and the characters [trim] strips:
    TAB, LF, VT, FF, CR, SPACE and NBSP. *)
Definition isWhiteSpace (c : ascii) : bool :=
  let n := nat_of_ascii c in
  (((9 <=? n) && (n <=? 13)) || (n =? 32) || (n =? 160))%nat.

Definition isEmpty (s : string) : bool :=
  match s with EmptyString => true | String _ _ => false end.

(** Truthiness of a string: non-empty. *)
Definition truthy (s : string) : bool := negb (isEmpty s).

Fixpoint trimStart (s : string) : string :=
  match s with
  | EmptyString => EmptyString
  | String c r => if isWhiteSpace c then trimStart r else s
  end.

Fixpoint trimEnd (s : string) : string :=
  match s with
  | EmptyString => EmptyString
  | String c r =>
      let r' := trimEnd r in
      if isWhiteSpace c && isEmpty r' then EmptyString else String c r'
  end.

(** [s.trim()] *)
Definition trim (s : string) : string := trimEnd (trimStart s).

(** Prepend a character to the first element of a list of strings. *)
Definition consHead (c : ascii) (l : list string) : list string :=
  match l with
  | [] => [String c EmptyString]
  | h :: t => String c h :: t
  end.

(** [s.split(sep)] for a one-character separator: never the empty list. *)
Fixpoint split (sep : ascii) (s : string) : list string :=
  match s with
  | EmptyString => [EmptyString]
  | String c r =>
      if Ascii.eqb c sep then EmptyString :: split sep r
      else consHead c (split sep r)
  end.

(** [s.replace(/\s+/g, ' ')]: every maximal run of white space becomes one
    space.  [inRun] tells that the previous character was white space. *)
Fixpoint collapseFrom (inRun : bool) (s : string) : string :=
  match s with
  | EmptyString => EmptyString
  | String c r =>
      if isWhiteSpace c
      then (if inRun then collapseFrom true r
            else String " " (collapseFrom true r))
      else String c (collapseFrom false r)
  end.

Definition collapseWhiteSpace (s : string) : string := collapseFrom false s.

(** [s.split(/\s+/)] *)
Fixpoint splitRunsFrom (inRun : bool) (s : string) : list string :=
  match s with
  | EmptyString => [EmptyString]
  | String c r =>
      if isWhiteSpace c
      then (if inRun then splitRunsFrom true r
            else EmptyString :: splitRunsFrom true r)
      else consHead c (splitRunsFrom false r)
  end.

Definition splitWhiteSpace (s : string) : list string := splitRunsFrom false s.

(** [l.join(sep)] *)
Definition join (sep : string) (l : list string) : string := String.concat sep l.

(** [s.includes(c)] for a one-character needle. *)
Fixpoint includes (c : ascii) (s : string) : bool :=
  match s with
  | EmptyString => false
  | String a r => Ascii.eqb a c || includes c r
  end.

(** [s.startsWith(p)] *)
Fixpoint startsWith (p s : string) : bool :=
  match p with
  | EmptyString => true
  | String a p' =>
      match s with
      | EmptyString => false
      | String b s' => Ascii.eqb a b && startsWith p' s'
      end
  end.

(** Every character of [s] satisfies [p]. *)
Fixpoint all (p : ascii -> bool) (s : string) : bool :=
  match s with
  | EmptyString => true
  | String c r => p c && all p r
  end.

(** [c.toUpperCase()] for one code unit below 256, as UTF-16 code units:
    the small letters a to z and those of Latin-1 go to their capitals, the
    sharp s (223) to two units, the micro sign (181) and the y with
    diaeresis (255) to units above 255; the division sign (247) and all
    other units stay. *)
Definition upperUnits (c : ascii) : list nat :=
  let n := nat_of_ascii c in
  if ((97 <=? n) && (n <=? 122))%nat then [n - 32]
  else if (n =? 181)%nat then [924]
  else if (n =? 223)%nat then [83; 83]
  else if ((224 <=? n) && (n <=? 254) && negb (n =? 247))%nat then [n - 32]
  else if (n =? 255)%nat then [376]
  else [n].

(** [s.toUpperCase()], as the list of its UTF-16 code units; [split('')]
    cuts the upper-cased text into these units. *)
Fixpoint toUpperCase (s : string) : list nat :=
  match s with
  | EmptyString => []
  | String c r => (upperUnits c ++ toUpperCase r)%list
  end.

(** The one-unit string of a code unit, where the unit is below 256. *)
Definition unitString (u : nat) : option string :=
  if (u <? 256)%nat then Some (String (ascii_of_nat u) EmptyString) else None.


(** An object literal used as a string-keyed table. *)
Definition table : Type := list (string * string).

(** An own entry of [t]. *)
Fixpoint own (t : table) (k : string) : option string :=
  match t with
  | [] => None
  | (k', v) :: r => if String.eqb k' k then Some v else own r k
  end.

(** The text string conversion gives a built-in function. *)
Definition nativeText (name : string) : string :=
  "function " ++ name ++ "() { [native code] }".

(** The members every object literal inherits from [Object.prototype],
    each with the text that string conversion, as [join] applies it, makes
    of it: eleven functions and, under [__proto__], the prototype object
    itself. *)
Definition objectPrototype : table :=
  [ ("constructor", nativeText "Object");
    ("__defineGetter__", nativeText "__defineGetter__");
    ("__defineSetter__", nativeText "__defineSetter__");
    ("hasOwnProperty", nativeText "hasOwnProperty");
    ("__lookupGetter__", nativeText "__lookupGetter__");
    ("__lookupSetter__", nativeText "__lookupSetter__");
    ("isPrototypeOf", nativeText "isPrototypeOf");
    ("propertyIsEnumerable", nativeText "propertyIsEnumerable");
    ("toString", nativeText "toString");
    ("valueOf", nativeText "valueOf");
    ("__proto__", "[object Object]");
    ("toLocaleString", nativeText "toLocaleString") ].

(** [t[k]]: an own entry, else an inherited member; [None] is
    [undefined].  An inherited member is a function or an object and as
    such truthy; it stands here as its text, which is not empty. *)
Definition get (t : table) (k : string) : option string :=
  match own t k with
  | Some v => Some v
  | None => own objectPrototype k
  end.

(** [t[k] = v]: an existing key keeps its place, a new one goes last. *)
Fixpoint set (t : table) (k v : string) : table :=
  match t with
  | [] => [(k, v)]
  | (k', v') :: r =>
      if String.eqb k' k then (k', v) :: r else (k', v') :: set r k v
  end.

(** [Object.keys(t)] *)
Definition keys (t : table) : list string := map fst t.

(** [x || d] for a looked-up string [x]. *)
Definition orElse (x : option string) (d : string) : string :=
  match x with
  | Some v => if truthy v then v else d
  | None => d
  end.

End Js.

(** ** morse.js *)

Module Morse.
Import Js.

Definition DQUOTE : string := String (ascii_of_nat 34) EmptyString.

Definition MORSE_CODE : table :=
  [ (".-", "A"); ("-...", "B"); ("-.-.", "C"); ("-..", "D"); (".", "E");
    ("..-.", "F"); ("--.", "G"); ("....", "H"); ("..", "I"); (".---", "J");
    ("-.-", "K"); (".-..", "L"); ("--", "M"); ("-.", "N"); ("---", "O");
    (".--.", "P"); ("--.-", "Q"); (".-.", "R"); ("...", "S"); ("-", "T");
    ("..-", "U"); ("...-", "V"); (".--", "W"); ("-..-", "X"); ("-.--", "Y");
    ("--..", "Z");
    ("-----", "0"); (".----", "1"); ("..---", "2"); ("...--", "3");
    ("....-", "4"); (".....", "5"); ("-....", "6"); ("--...", "7");
    ("---..", "8"); ("----.", "9");
    ("/", " "); (".-.-.-", "."); ("--..--", ","); ("..--..", "?");
    (".----.", "'"); ("-.-.--", "!"); ("-..-.", "/"); ("-.--.", "(");
    ("-.--.-", ")"); (".-...", "&"); ("---...", ":"); ("-.-.-.", ";");
    ("-...-", "="); (".-.-.", "+"); ("-....-", "-"); ("..--.-", "_");
    (".-..-.", DQUOTE); ("...-..-", "$"); (".--.-.", "@") ].

(** The reverse table, filled key by key in the order of [MORSE_CODE]. *)
Definition CHAR_TO_MORSE : table :=
  fold_left
    (fun acc morse =>
       match get MORSE_CODE morse with
       | Some ch => set acc ch morse
       | None => acc
       end)
    (keys MORSE_CODE) [].

(** One element of [letters.map(...)] in [decodeMorse], over table [t]. *)
Definition decodeLetter (t : table) (letter : string) : string :=
  if String.eqb letter "/" then " " else orElse (get t letter) "?".

(** The body of [decodeMorse]; morse.js runs it over [MORSE_CODE], the copy
    in communication.js over its own [MORSE_CODE_MAP]. *)
Definition decodeMorseOver (t : table) (morse : value) : string :=
  match morse with
  | Str morse =>
      if isEmpty morse then ""
      else if String.eqb morse "/" || String.eqb morse " / "
              || String.eqb (trim morse) "/"
      then " "
      else
        let cleanMorse := collapseWhiteSpace (trim morse) in
        let letters :=
          filter (fun letter => (0 <? String.length letter)%nat)
                 (split " " cleanMorse) in
        join "" (map (decodeLetter t) letters)
  | _ => ""
  end.

Definition decodeMorse (morse : value) : string :=
  decodeMorseOver MORSE_CODE morse.

(** One element of the [map] in [encodeToMorse]; [char] is one code unit
    of the upper-cased text.  A unit above 255 is no key of the table, and
    no inherited member has a name of one unit. *)
Definition encodeChar (char : nat) : string :=
  if (char =? 32)%nat then "/"
  else match unitString char with
       | Some key => orElse (get CHAR_TO_MORSE key) ""
       | None => ""
       end.

Definition encodeToMorse (text : value) : string :=
  match text with
  | Str text =>
      if isEmpty text then ""
      else
        join " "
          (filter (fun morse => (0 <? String.length morse)%nat)
                  (map encodeChar (toUpperCase text)))
  | _ => ""
  end.

Definition isMorseChar (c : ascii) : bool :=
  Ascii.eqb c "." || Ascii.eqb c "-" || isWhiteSpace c || Ascii.eqb c "/".

(** [/^[.\-\s/]+$/.test(morse)] behind the string guard. *)
Definition isValidMorse (morse : value) : bool :=
  match morse with
  | Str morse => truthy morse && all isMorseChar morse
  | _ => false
  end.

End Morse.

(** ** communication.js *)

Module Comm.
Import Js.

(** The fallback table of communication.js: letters and digits only. *)
Definition MORSE_CODE_MAP : table :=
  [ (".-", "A"); ("-...", "B"); ("-.-.", "C"); ("-..", "D"); (".", "E");
    ("..-.", "F"); ("--.", "G"); ("....", "H"); ("..", "I"); (".---", "J");
    ("-.-", "K"); (".-..", "L"); ("--", "M"); ("-.", "N"); ("---", "O");
    (".--.", "P"); ("--.-", "Q"); (".-.", "R"); ("...", "S"); ("-", "T");
    ("..-", "U"); ("...-", "V"); (".--", "W"); ("-..-", "X"); ("-.--", "Y");
    ("--..", "Z"); ("-----", "0"); (".----", "1"); ("..---", "2");
    ("...--", "3"); ("....-", "4"); (".....", "5"); ("-....", "6");
    ("--...", "7"); ("---..", "8"); ("----.", "9") ].

(** communication.js repeats [isValidMorse] and [decodeMorse] word for word;
    only the table differs. *)
Definition isValidMorse (morse : value) : bool := Morse.isValidMorse morse.

Definition decodeMorse (morse : value) : string :=
  Morse.decodeMorseOver MORSE_CODE_MAP morse.

(** The two module-level accumulators. *)
Record State : Type := mkState {
  currentBuilding : string;
  decodedText : string
}.

Definition initial : State := mkState "" "".

(** What [getSettings()] yields, as far as the interpreter reads it. *)
Record Settings : Type := mkSettings { autoSave : bool }.

(** Argument of [updateBuilding]: the dash placeholder or a pattern. *)
Inductive Display : Type :=
| Placeholder
| Pattern (p : string).

(** Calls made on the page and on the storage side. *)
Inductive Event : Type :=
| LiveMorse (line : string)
| UpdateBuilding (d : Display)
| UpdateDecoded (text : string)
| SaveCurrentMessage (silent : bool)
| ClearManualInput
| ShowToast (message : string).

Definition isWordBreak (line : string) : bool :=
  String.eqb line "/" || String.eqb line "SPACE" || String.eqb line "WORD_END".

Definition isLetterBreak (line : string) : bool :=
  String.eqb line "|" || String.eqb line "LETTER"
  || String.eqb line "LETTER_END".

Definition isDotOrDash (c : ascii) : bool :=
  Ascii.eqb c "." || Ascii.eqb c "-".

(** [line.match(/^[.\-]+$/)] as a condition. *)
Definition matchesDotsDashes (line : string) : bool :=
  truthy line && all isDotOrDash line.

Fixpoint takeWhile (p : ascii -> bool) (s : string) : string :=
  match s with
  | EmptyString => EmptyString
  | String c r => if p c then String c (takeWhile p r) else EmptyString
  end.

(** [line.match(/([.\-\s/]+)/)]: group 1 of the match, [None] for [null].
    An unanchored pattern matches at the leftmost position, greedily. *)
Fixpoint matchMorseRun (line : string) : option string :=
  match line with
  | EmptyString => None
  | String c r =>
      if Morse.isMorseChar c
      then Some (String c (takeWhile Morse.isMorseChar r))
      else matchMorseRun r
  end.

(** [decodedText += decoded] under [if (decoded && decoded !== '?')]. *)
Definition appendDecoded (decode : value -> string) (text pattern : string)
  : string :=
  let decoded := decode (Str pattern) in
  if truthy decoded && negb (String.eqb decoded "?")
  then text ++ decoded
  else text.

(** [if (currentBuilding) { ... }] of the two separator branches. *)
Definition finalizeBuilding (decode : value -> string) (st : State) : string :=
  if truthy (currentBuilding st)
  then appendDecoded decode (decodedText st) (currentBuilding st)
  else decodedText st.

(** The [if / else if] chain of [handleDataLine]. *)
Definition dispatch (decode : value -> string) (st : State) (line : string)
  : State * list Event :=
  if isWordBreak line then
    (mkState "" (finalizeBuilding decode st ++ " "),
     [UpdateBuilding Placeholder])
  else if isLetterBreak line then
    (mkState "" (finalizeBuilding decode st), [UpdateBuilding Placeholder])
  else if isValidMorse (Str line) then
    (mkState line (appendDecoded decode (decodedText st) line),
     [UpdateBuilding (Pattern line)])
  else if matchesDotsDashes line then
    (mkState line (decodedText st), [UpdateBuilding (Pattern line)])
  else if startsWith "BLINK:" line || startsWith "MORSE:" line then
    match option_map trim (nth_error (split ":" line) 1) with
    | Some morseData =>
        if truthy morseData
        then (mkState morseData (decodedText st),
              [UpdateBuilding (Pattern morseData)])
        else (st, [])
    | None => (st, [])
    end
  else if includes "." line || includes "-" line then
    match matchMorseRun line with
    | Some run =>
        let building := trim run in
        (mkState building (decodedText st),
         [UpdateBuilding (Pattern building)])
    | None => (st, [])
    end
  else (st, []).

(** The auto-save tail of [handleDataLine]. *)
Definition autoSaveEvents (settings : Settings) (st : State) : list Event :=
  if autoSave settings && (0 <? String.length (decodedText st))%nat
  then (if (String.length (decodedText st) mod 10 =? 0)%nat
        then [SaveCurrentMessage true] else [])
  else [].

(** [handleDataLine], with the [decodeMorse] in scope as a parameter. *)
Definition handleDataLineWith (decode : value -> string)
    (settings : Settings) (st : State) (line : string) : State * list Event :=
  if isEmpty line then (st, [])
  else
    let '(st', shown) := dispatch decode st line in
    (st', ([LiveMorse line] ++ shown ++ [UpdateDecoded (decodedText st')]
           ++ autoSaveEvents settings st')%list).

Definition handleDataLine : Settings -> State -> string -> State * list Event :=
  handleDataLineWith decodeMorse.

(** Lines handed to the interpreter one after the other. *)
Fixpoint feedWith (decode : value -> string) (settings : Settings)
    (st : State) (lines : list string) : State * list Event :=
  match lines with
  | [] => (st, [])
  | line :: rest =>
      let '(st1, ev1) := handleDataLineWith decode settings st line in
      let '(st2, ev2) := feedWith decode settings st1 rest in
      (st2, (ev1 ++ ev2)%list)
  end.

Definition feed : Settings -> State -> list string -> State * list Event :=
  feedWith decodeMorse.

(** One pass of the token loop of [addManualInput]. *)
Definition manualToken (decode : value -> string) (addedText token : string)
  : string :=
  if String.eqb token "/" || String.eqb token "SPACE" then addedText ++ " "
  else if isValidMorse (Str token) then addedText ++ decode (Str token)
  else addedText.

(** [addManualInput]; [manualBox] is the text of the entry field, [None]
    when the page has no such field. *)
Definition addManualInputWith (decode : value -> string)
    (manualBox : option string) (st : State) : State * list Event :=
  match manualBox with
  | None => (st, [])
  | Some content =>
      let manualText := trim content in
      if isEmpty manualText then (st, [])
      else
        let tokens := splitWhiteSpace manualText in
        let addedText := fold_left (manualToken decode) tokens "" in
        if truthy addedText
        then
          let text := decodedText st ++ addedText in
          (mkState (currentBuilding st) text,
           [UpdateDecoded text; ClearManualInput;
            ShowToast ("Added: " ++ addedText)])
        else (st, [ShowToast "No valid Morse code found"])
  end.

Definition addManualInput : option string -> State -> State * list Event :=
  addManualInputWith decodeMorse.

Definition LF : ascii := "010"%char.

(** The lines [handleBluetoothData] passes to [handleDataLine] for one
    notification payload. *)
Definition bluetoothLines (data : string) : list string :=
  filter truthy (map trim (split LF data)).

Definition handleBluetoothData (settings : Settings) (st : State)
    (data : string) : State * list Event :=
  feed settings st (bluetoothLines data).

(** [class LineBreakTransformer]: its one field. *)
Record LineBreakTransformer : Type := mkTransformer { chunks : string }.

Definition newTransformer : LineBreakTransformer := mkTransformer "".

(** [transform(chunk, controller)]: the new object and what was enqueued. *)
Definition transform (t : LineBreakTransformer) (chunk : string)
  : LineBreakTransformer * list string :=
  let buffered := chunks t ++ chunk in
  let lines := split LF buffered in
  (mkTransformer (last lines ""),
   filter truthy (map trim (removelast lines))).

(** [flush(controller)] *)
Definition flush (t : LineBreakTransformer) : list string :=
  let trimmed := trim (chunks t) in
  if truthy trimmed then [trimmed] else [].

(** The transformer fed with a sequence of decoded chunks. *)
Fixpoint pipeThrough (t : LineBreakTransformer) (input : list string)
  : LineBreakTransformer * list string :=
  match input with
  | [] => (t, [])
  | chunk :: rest =>
      let '(t1, out1) := transform t chunk in
      let '(t2, out2) := pipeThrough t1 rest in
      (t2, (out1 ++ out2)%list)
  end.

(** The lines [readSerialData] passes to [handleDataLine]: every enqueued
    value that is truthy, trimmed again.  [closed] tells whether the stream
    ended, which runs [flush]. *)
Definition serialLines (closed : bool) (input : list string) : list string :=
  let '(t, out) := pipeThrough newTransformer input in
  let values := (out ++ (if closed then flush t else []))%list in
  map trim (filter truthy values).

(** The same for a sequence of notifications. *)
Definition bluetoothForwarded (input : list string) : list string :=
  flat_map bluetoothLines input.

End Comm.

(** ** Readings of the specification used for comparison *)

Module Reading.
Import Js.

(** A token ends where the text ends or white space follows. *)
Definition atBoundary (rest : string) : bool :=
  match rest with
  | EmptyString => true
  | String d _ => isWhiteSpace d
  end.

(** "each space-separated token": the maximal runs of characters that are
    not white space, left to right. *)
Fixpoint tokens (s : string) : list string :=
  match s with
  | EmptyString => []
  | String c r =>
      if isWhiteSpace c then tokens r
      else if atBoundary r then String c EmptyString :: tokens r
      else consHead c (tokens r)
  end.

(** "the substring after the first colon" *)
Fixpoint afterFirstColon (line : string) : string :=
  match line with
  | EmptyString => EmptyString
  | String c r => if Ascii.eqb c ":" then r else afterFirstColon r
  end.

(** All maximal runs of pattern characters of a line, left to right. *)
Fixpoint morseRuns (line : string) : list string :=
  match line with
  | EmptyString => []
  | String c r =>
      if Morse.isMorseChar c
      then match r with
           | String d _ =>
               if Morse.isMorseChar d then Js.consHead c (morseRuns r)
               else String c EmptyString :: morseRuns r
           | EmptyString => [String c EmptyString]
           end
      else morseRuns r
  end.

(** A run stops where the line ends or a character outside the class
    follows. *)
Definition endsRun (rest : string) : bool :=
  match rest with
  | EmptyString => true
  | String d _ => negb (Morse.isMorseChar d)
  end.

Definition notMorseChar (c : ascii) : bool := negb (Morse.isMorseChar c).

(** The first of the runs, empty where the line has none. *)
Definition firstRun (line : string) : string := hd "" (morseRuns line).

(** "the longest contiguous run": the first among the longest. *)
Definition longestRun (line : string) : string :=
  fold_left
    (fun best run =>
       if (String.length best <? String.length run)%nat then run else best)
    (morseRuns line) "".

(** "crossing of each 10-character boundary": how many multiples of ten a
    sequence of lengths passes upwards, starting from length [from]. *)
Fixpoint crossings (from : nat) (lengths : list nat) : nat :=
  match lengths with
  | [] => 0
  | n :: rest => (n / 10 - from / 10) + crossings n rest
  end.

End Reading.

(** The condition under which the tail of [handleDataLine] saves, on the
    length [n] of the decoded text. *)
Definition fires (settings : Comm.Settings) (n : nat) : bool :=
  Comm.autoSave settings && (0 <? n)%nat && (n mod 10 =? 0)%nat.

Definition notColon (c : ascii) : bool := negb (Ascii.eqb c ":").

(** A line that went through [trim] and the truthiness test: it passes
    both again unchanged. *)
Definition settled (line : string) : Prop :=
  Js.truthy line = true /\ Js.trim line = line.

(** A chunk that ends with a line feed. *)
Definition terminated (chunk : string) : Prop :=
  exists body, chunk = body ++ String Comm.LF "".

(** How often the save call occurs in a trace. *)
Definition isSave (e : Comm.Event) : bool :=
  match e with Comm.SaveCurrentMessage _ => true | _ => false end.

Definition saves (trace : list Comm.Event) : nat :=
  List.length (filter isSave trace).

(** The lengths of [decodedText] after each line of a run. *)
Fixpoint lengthsAfter (settings : Comm.Settings) (st : Comm.State)
    (lines : list string) : list nat :=
  match lines with
  | [] => []
  | line :: rest =>
      let st1 := fst (Comm.handleDataLine settings st line) in
      String.length (Comm.decodedText st1) :: lengthsAfter settings st1 rest
  end.

(** ** Further functions of morse.js and communication.js *)

Module Text.
Import Js.

(** The object [getTextStatistics] returns. *)
Record Statistics : Type := mkStatistics {
  characters : nat;
  words : nat;
  sentences : nat
}.

Definition isSentenceEnd (c : ascii) : bool :=
  Ascii.eqb c "." || Ascii.eqb c "!" || Ascii.eqb c "?".

(** [s.split(/[...]+/)] for a character class [p]; [inRun] tells that the
    previous character was in the class. *)
Fixpoint splitRunsOf (p : ascii -> bool) (inRun : bool) (s : string)
  : list string :=
  match s with
  | EmptyString => [EmptyString]
  | String c r =>
      if p c
      then (if inRun then splitRunsOf p true r
            else EmptyString :: splitRunsOf p true r)
      else consHead c (splitRunsOf p false r)
  end.

(** [getTextStatistics], the same in morse.js and communication.js. *)
Definition getTextStatistics (text : value) : Statistics :=
  match text with
  | Str text =>
      if isEmpty text then mkStatistics 0 0 0
      else
        let characters := String.length text in
        let words :=
          if truthy (trim text)
          then List.length (splitWhiteSpace (trim text)) else 0 in
        let sentences :=
          List.length
            (filter (fun s => (0 <? String.length (trim s))%nat)
                    (splitRunsOf isSentenceEnd false text)) in
        mkStatistics characters words sentences
  | _ => mkStatistics 0 0 0
  end.

End Text.

Module Page.
Import Js Comm.

(** [addToManualInput(char)]: the new text of the entry field; [None] when
    the page has no such field. *)
Definition addToManualInput (manualBox : option string) (char : string)
  : option string :=
  match manualBox with
  | None => None
  | Some current =>
      if String.eqb char " " then Some (current ++ " ")
      else Some (trim (current ++ " " ++ char))
  end.

(** A stored message. *)
Record Message : Type := mkMessage {
  id : string;
  text : string;
  originalText : string;
  translated : bool;
  language : string;
  timestamp : nat;
  date : string;
  stats : Text.Statistics
}.

(** [saveCurrentMessage] where no [saveMessage] function is loaded: the
    list parsed from local storage and the list written back.  The clock
    and the random part of the identifier come from outside: [messageId],
    [now], [today]. *)
Definition saveCurrentMessage (messageId : string) (now : nat)
    (today : string) (silent : bool) (messages : list Message) (st : State)
  : list Message * list Event :=
  let text := trim (decodedText st) in
  if isEmpty text
  then (messages, if silent then [] else [ShowToast "No text to save"])
  else
    let stats := Text.getTextStatistics (Str text) in
    let unshifted :=
      mkMessage messageId text text false "en" now today stats :: messages in
    let kept :=
      if (100 <? List.length unshifted)%nat then firstn 100 unshifted
      else unshifted in
    (kept, if silent then [] else [ShowToast "Message saved successfully!"]).

End Page.

(** The lines both transports make of the parts of a text: each part
    trimmed, the empty ones left out. *)
Definition lineList (parts : list string) : list string :=
  filter Js.truthy (map Js.trim parts).

(** What a transport may hand to the interpreter: a line that is not empty,
    has no white space at either end and holds no line feed. *)
Definition wellFormed (line : string) : Prop :=
  Js.truthy line = true /\ Js.trim line = line /\
  Js.includes Comm.LF line = false.


(** A token as a button or a pattern letter gives it: not empty and free of
    white space. *)
Definition clean (token : string) : bool :=
  Js.truthy token && Js.all (fun c => negb (Js.isWhiteSpace c)) token.

(** What one token of the manual entry adds. *)
Definition manualAdds (token : string) : string :=
  Comm.manualToken Comm.decodeMorse "" token.

(** * Properties *)

(** ** Worked inputs *)

Example decode_sample :
  Morse.decodeMorse (Js.Str "  .-   -... / ...  ") = "AB S".
Proof. reflexivity. Qed.

Example encode_sample :
  Morse.encodeToMorse (Js.Str "Hi, you#") = ".... .. --..-- / -.-- --- ..-".
Proof. reflexivity. Qed.

Example encode_sharp_s :
  Morse.encodeToMorse (Js.Str (String (ascii_of_nat 223) "")) = "... ...".
Proof. reflexivity. Qed.

Example decode_inherited_name :
  Morse.decodeMorse (Js.Str "valueOf") = "function valueOf() { [native code] }".
Proof. reflexivity. Qed.

Example inherited_name_reaches_text :
  Comm.decodedText
    (fst (Comm.feed (Comm.mkSettings false) Comm.initial
            ["BLINK:constructor"; "|"]))
  = "function Object() { [native code] }".
Proof. reflexivity. Qed.

Example split_sample : Js.split "," "a,,b," = ["a"; ""; "b"; ""].
Proof. reflexivity. Qed.

Example splitWhiteSpace_sample : Js.splitWhiteSpace " a  b " = [""; "a"; "b"; ""].
Proof. reflexivity. Qed.

Example device_session :
  fst (Comm.feed (Comm.mkSettings false) Comm.initial
         ["DEVICE_READY"; "...."; ".."; "/"; "PONG"])
  = Comm.mkState "" "HII ".
Proof. reflexivity. Qed.

Example serial_holds_back_tail :
  Comm.serialLines false [String "." (String Comm.LF "-")] = ["."] /\
  Comm.serialLines true [String "." (String Comm.LF "-")] = ["."; "-"].
Proof. split; reflexivity. Qed.

(** ** Strings *)

Section StringFacts.
Import Js.

Lemma white_space_not_space c :
  isWhiteSpace c = false -> Ascii.eqb c " " = false.
Proof.
  intros H. destruct (Ascii.eqb_spec c " ") as [->|]; [discriminate H | reflexivity].
Qed.

Lemma split_not_nil sep s : split sep s <> [].
Proof.
  destruct s as [|c r]; simpl; [discriminate|].
  destruct (Ascii.eqb c sep); [discriminate|].
  destruct (split sep r); discriminate.
Qed.

Lemma consHead_app c l l' :
  l <> [] -> consHead c (l ++ l')%list = (consHead c l ++ l')%list.
Proof. destruct l; [congruence | reflexivity]. Qed.

Lemma split_snoc_sep sep body :
  split sep (body ++ String sep "") = (split sep body ++ [""])%list.
Proof.
  induction body as [|c r IH]; simpl.
  - rewrite Ascii.eqb_refl. reflexivity.
  - destruct (Ascii.eqb c sep).
    + rewrite IH. reflexivity.
    + rewrite IH. apply consHead_app, split_not_nil.
Qed.

Lemma trimEnd_idem s : trimEnd (trimEnd s) = trimEnd s.
Proof.
  induction s as [|c r IH]; simpl; [reflexivity|].
  destruct (isWhiteSpace c && isEmpty (trimEnd r)) eqn:E; simpl; [reflexivity|].
  rewrite IH, E. reflexivity.
Qed.

Lemma trimStart_head s :
  Reading.atBoundary (trimStart s) = true -> trimStart s = "".
Proof.
  induction s as [|c r IH]; simpl; [reflexivity|].
  destruct (isWhiteSpace c) eqn:E; [exact IH|].
  simpl. rewrite E. discriminate.
Qed.

Lemma trimStart_fixed s :
  s = "" \/ Reading.atBoundary s = false -> trimStart s = s.
Proof.
  intros [->|H]; [reflexivity|].
  destruct s as [|c r]; [reflexivity|]. simpl in *. rewrite H. reflexivity.
Qed.

Lemma trim_idem s : trim (trim s) = trim s.
Proof.
  unfold trim.
  assert (H : trimStart (trimEnd (trimStart s)) = trimEnd (trimStart s)).
  { apply trimStart_fixed.
    destruct (trimStart s) as [|c r] eqn:E; [left; reflexivity|].
    assert (W : isWhiteSpace c = false).
    { destruct (isWhiteSpace c) eqn:W; [|reflexivity].
      pose proof (trimStart_head s) as T. rewrite E in T. simpl in T.
      specialize (T W). discriminate T. }
    right. simpl. rewrite W. simpl. exact W. }
  rewrite H. apply trimEnd_idem.
Qed.

Lemma join_empty_singleton x : join "" [x] = x.
Proof. reflexivity. Qed.

End StringFacts.

(** ** Tokens of a pattern *)

Section TokenFacts.
Import Js Reading.

Lemma tokens_of_collapse inRun s :
  filter (fun letter => (0 <? String.length letter)%nat)
         (split " " (collapseFrom inRun s)) = tokens s.
Proof.
  revert inRun. induction s as [|c r IH]; intros inRun; [reflexivity|].
  simpl. destruct (isWhiteSpace c) eqn:W.
  - destruct inRun; [apply IH|]. simpl. apply IH.
  - simpl. rewrite (white_space_not_space _ W).
    specialize (IH false).
    destruct r as [|d r']; [reflexivity|].
    simpl atBoundary. simpl collapseFrom in *.
    destruct (isWhiteSpace d) eqn:D.
    + simpl in IH |- *. rewrite IH. reflexivity.
    + simpl split in *. rewrite (white_space_not_space _ D) in *.
      destruct (split " " (collapseFrom false r')) as [|h t] eqn:S.
      * exfalso. exact (split_not_nil _ _ S).
      * simpl in IH |- *. rewrite <- IH. reflexivity.
Qed.

Lemma tokens_trimStart s : tokens (trimStart s) = tokens s.
Proof.
  induction s as [|c r IH]; simpl; [reflexivity|].
  destruct (isWhiteSpace c) eqn:W; [exact IH|].
  simpl. rewrite W. reflexivity.
Qed.

Lemma tokens_blank s : isEmpty (trimEnd s) = true -> tokens s = [].
Proof.
  induction s as [|c r IH]; simpl; [reflexivity|].
  destruct (isWhiteSpace c) eqn:W; simpl.
  - destruct (isEmpty (trimEnd r)); [auto | discriminate].
  - discriminate.
Qed.

Lemma atBoundary_trimEnd s : atBoundary (trimEnd s) = atBoundary s.
Proof.
  destruct s as [|c r]; simpl; [reflexivity|].
  destruct (isWhiteSpace c) eqn:W; simpl.
  - destruct (isEmpty (trimEnd r)); simpl; auto.
  - exact W.
Qed.

Lemma tokens_trimEnd s : tokens (trimEnd s) = tokens s.
Proof.
  induction s as [|c r IH]; [reflexivity|].
  cbn [trimEnd]. destruct (isWhiteSpace c) eqn:W; cbn [andb].
  - destruct (isEmpty (trimEnd r)) eqn:E.
    + simpl. rewrite W. symmetry. apply tokens_blank, E.
    + simpl. rewrite W. exact IH.
  - simpl. rewrite W, atBoundary_trimEnd, IH. reflexivity.
Qed.

Lemma tokens_trim s : tokens (trim s) = tokens s.
Proof. unfold trim. rewrite tokens_trimEnd. apply tokens_trimStart. Qed.

(** The pipeline of [decodeMorse] computes the tokens of its argument,
    whatever the table. *)
Lemma decodeMorseOver_tokens t s :
  Morse.decodeMorseOver t (Str s) = join "" (map (Morse.decodeLetter t) (tokens s)).
Proof.
  unfold Morse.decodeMorseOver.
  destruct (isEmpty s) eqn:E.
  { destruct s; [reflexivity | discriminate E]. }
  destruct (String.eqb s "/" || String.eqb s " / " || String.eqb (trim s) "/") eqn:B.
  - assert (T : tokens s = ["/"]).
    { apply orb_true_iff in B as [B|B]; [apply orb_true_iff in B as [B|B]|];
        apply String.eqb_eq in B.
      - subst s. reflexivity.
      - subst s. reflexivity.
      - rewrite <- tokens_trim, B. reflexivity. }
    rewrite T. reflexivity.
  - unfold collapseWhiteSpace.
    rewrite (tokens_of_collapse false (trim s)), tokens_trim. reflexivity.
Qed.

End TokenFacts.

(** ** The codec *)

Section CodecFacts.
Import Js Morse.

Lemma own_In (t : table) k v : own t k = Some v -> In (k, v) t.
Proof.
  induction t as [|[k' v'] r IH]; simpl; [discriminate|].
  destruct (String.eqb_spec k' k) as [->|].
  - intros [= ->]. left. reflexivity.
  - intros H. right. apply IH, H.
Qed.

Lemma get_cases (t : table) k v :
  get t k = Some v -> In (k, v) t \/ In (k, v) objectPrototype.
Proof.
  unfold get. destruct (own t k) as [w|] eqn:O.
  - intros [= <-]. left. apply own_In, O.
  - intros H. right. apply own_In, H.
Qed.

(** No inherited name is made of pattern characters or is one character
    long, and every inherited member shows as a text that is neither empty
    nor the question mark. *)
Lemma objectPrototype_names :
  Forall (fun entry =>
            all isMorseChar (fst entry) = false /\
            (1 <? String.length (fst entry))%nat = true /\
            truthy (snd entry) = true /\
            String.eqb (snd entry) "?" = false)
         objectPrototype.
Proof. vm_compute. repeat constructor. Qed.

Lemma inherited_facts k v :
  own objectPrototype k = Some v ->
  all isMorseChar k = false /\ (1 <? String.length k)%nat = true /\
  truthy v = true /\ String.eqb v "?" = false.
Proof.
  intros O. apply own_In in O.
  exact (proj1 (Forall_forall _ _) objectPrototype_names _ O).
Qed.

Lemma get_pattern t k : all isMorseChar k = true -> get t k = own t k.
Proof.
  intros A. unfold get. destruct (own t k); [reflexivity|].
  destruct (own objectPrototype k) as [v|] eqn:O; [|reflexivity].
  destruct (inherited_facts _ _ O) as [N _]. congruence.
Qed.


Lemma MORSE_CODE_values_truthy :
  Forall (fun entry => truthy (snd entry) = true) MORSE_CODE.
Proof. unfold MORSE_CODE. repeat constructor. Qed.

(** What a token becomes: a space for the slash, the character of its own
    entry, the text of the inherited member it names, or the question
    mark. *)
Lemma decodeLetter_MORSE_CODE letter :
  decodeLetter MORSE_CODE letter =
  if String.eqb letter "/" then " "
  else match own MORSE_CODE letter with
       | Some ch => ch
       | None => match own objectPrototype letter with
                 | Some text => text
                 | None => "?"
                 end
       end.
Proof.
  unfold decodeLetter, get. destruct (String.eqb letter "/"); [reflexivity|].
  destruct (own MORSE_CODE letter) as [ch|] eqn:G.
  - apply own_In in G.
    pose proof (proj1 (Forall_forall _ _) MORSE_CODE_values_truthy _ G) as T.
    simpl in T. simpl. rewrite T. reflexivity.
  - destruct (own objectPrototype letter) as [text|] eqn:O; [|reflexivity].
    destruct (inherited_facts _ _ O) as [_ [_ [T _]]].
    simpl. rewrite T. reflexivity.
Qed.

Lemma trim_slash_cases s :
  trim s <> "/" ->
  String.eqb s "/" || String.eqb s " / " || String.eqb (trim s) "/" = false.
Proof.
  intros H.
  destruct (String.eqb_spec s "/") as [->|]; [exfalso; apply H; reflexivity|].
  destruct (String.eqb_spec s " / ") as [->|]; [exfalso; apply H; reflexivity|].
  destruct (String.eqb_spec (trim s) "/"); [contradiction | reflexivity].
Qed.









End CodecFacts.

(** C4: [decodeMorse] yields the empty string for the empty string and for
    anything that is not a string, and one space for every input whose trim
    is the slash.  Otherwise it trims, turns each run of white space into
    one space, splits on spaces and joins the decoded tokens with no
    separator, so that the result is in every case the concatenation of the
    decoded white-space separated tokens of the input.  The slash decodes to
    a space and every pattern of the table to its character.  A token with
    no entry decodes to a question mark unless it names a member that the
    table object inherits: the token [constructor] decodes to the text of
    the [Object] function and not to a question mark. *)
Theorem decodeMorse_contract :
  (forall v, (forall s, v <> Js.Str s) -> Morse.decodeMorse v = "") /\
  Morse.decodeMorse (Js.Str "") = "" /\
  (forall s, Js.trim s = "/" -> Morse.decodeMorse (Js.Str s) = " ") /\
  (forall s, s <> "" -> Js.trim s <> "/" ->
     Morse.decodeMorse (Js.Str s) =
     Js.join ""
       (map (Morse.decodeLetter Morse.MORSE_CODE)
          (filter (fun letter => (0 <? String.length letter)%nat)
             (Js.split " " (Js.collapseWhiteSpace (Js.trim s)))))) /\
  (forall s,
     Morse.decodeMorse (Js.Str s) =
     Js.join "" (map (Morse.decodeLetter Morse.MORSE_CODE) (Reading.tokens s))) /\
  (forall morse ch,
     In (morse, ch) Morse.MORSE_CODE ->
     Morse.decodeLetter Morse.MORSE_CODE morse = ch /\
     Morse.decodeMorse (Js.Str morse) = ch) /\
  (forall letter,
     letter <> "/" ->
     Js.own Morse.MORSE_CODE letter = None ->
     Js.own Js.objectPrototype letter = None ->
     Morse.decodeLetter Morse.MORSE_CODE letter = "?") /\
  (forall name text,
     In (name, text) Js.objectPrototype ->
     Morse.decodeLetter Morse.MORSE_CODE name = text /\
     Morse.decodeMorse (Js.Str name) = text /\ text <> "?") /\
  Morse.decodeMorse (Js.Str "/") = " " /\
  Morse.decodeMorse (Js.Str " / ") = " " /\
  Morse.decodeMorse Js.Null = "" /\
  Morse.decodeMorse (Js.Str "constructor") =
    "function Object() { [native code] }" /\
  Morse.decodeMorse (Js.Str ".- constructor") =
    "Afunction Object() { [native code] }".
Proof.
  split; [|split; [|split; [|split; [|split; [|split; [|split; [|split]]]]]]].
  - intros v H. destruct v; try reflexivity. exfalso. exact (H s eq_refl).
  - reflexivity.
  - intros s H. unfold Morse.decodeMorse.
    rewrite decodeMorseOver_tokens, <- tokens_trim, H. reflexivity.
  - intros s Hne Hslash. unfold Morse.decodeMorse, Morse.decodeMorseOver.
    destruct s as [|c r]; [congruence|]. cbn [Js.isEmpty].
    rewrite (trim_slash_cases _ Hslash). reflexivity.
  - intros s. apply decodeMorseOver_tokens.
  - intros morse ch H. unfold Morse.MORSE_CODE in H. simpl in H.
    repeat (destruct H as [H|H];
            [injection H as <- <-; vm_compute; split; reflexivity|]).
    contradiction.
  - intros letter N O P. rewrite decodeLetter_MORSE_CODE, O, P.
    destruct (String.eqb_spec letter "/"); [contradiction | reflexivity].
  - intros name text H. unfold Js.objectPrototype in H. simpl in H.
    repeat (destruct H as [H|H];
            [injection H as <- <-; vm_compute; repeat split; discriminate|]).
    contradiction.
  - repeat split; reflexivity.
Qed.

Lemma decodeMorse_contract_witness :
  (In ("-.-.", "C") Morse.MORSE_CODE /\
   Morse.decodeMorse (Js.Str "-.-.") = "C") /\
  (Js.trim "  /  " = "/" /\ Morse.decodeMorse (Js.Str "  /  ") = " ") /\
  ("......" <> "/" /\
   Morse.decodeLetter Morse.MORSE_CODE "......" = "?").
Proof.
  assert (H : In ("-.-.", "C") Morse.MORSE_CODE).
  { right. right. left. reflexivity. }
  assert (N : "......" <> "/") by discriminate.
  refine (conj (conj H _) (conj (conj eq_refl _) (conj N _))).
  - exact (proj2 (proj1 (proj2 (proj2 (proj2 (proj2 (proj2
             decodeMorse_contract))))) "-.-." "C" H)).
  - apply (proj1 (proj2 (proj2 decodeMorse_contract))). reflexivity.
  - exact (proj1 (proj2 (proj2 (proj2 (proj2 (proj2 (proj2
             decodeMorse_contract)))))) "......" N eq_refl eq_refl).
Defined.



(** ** The line interpreter *)

Section InterpreterFacts.
Import Js Comm.

Variable decode : value -> string.

Lemma string_app_empty s : s ++ "" = s.
Proof. induction s; simpl; [|rewrite IHs]; reflexivity. Qed.

Lemma handleDataLineWith_state settings st line :
  fst (handleDataLineWith decode settings st line) =
  if isEmpty line then st else fst (dispatch decode st line).
Proof.
  unfold handleDataLineWith. destruct (isEmpty line); [reflexivity|].
  destruct (dispatch decode st line). reflexivity.
Qed.

(** A line of dots and dashes is valid Morse, so the fourth branch of the
    chain is never taken. *)
Lemma dots_dashes_are_valid line :
  matchesDotsDashes line = true -> isValidMorse (Str line) = true.
Proof.
  unfold matchesDotsDashes, isValidMorse, Morse.isValidMorse.
  intros H. apply andb_true_iff in H as [T A]. rewrite T. simpl.
  clear T. induction line as [|c r IH]; [reflexivity|].
  simpl in *. apply andb_true_iff in A as [C A]. rewrite (IH A), andb_true_r.
  unfold isDotOrDash in C. unfold Morse.isMorseChar.
  destruct (Ascii.eqb c "."); [reflexivity|]. simpl in C. rewrite C. reflexivity.
Qed.

Lemma startsWith_app p s :
  startsWith p s = true -> exists rest, s = p ++ rest.
Proof.
  revert s. induction p as [|a p IH]; intros s H.
  - exists s. reflexivity.
  - destruct s as [|b s]; [discriminate H|]. simpl in H.
    apply andb_true_iff in H as [E H]. apply Ascii.eqb_eq in E as ->.
    destruct (IH _ H) as [rest ->]. exists rest. reflexivity.
Qed.

(** Only the save call counts as a save; the chain itself makes none. *)
Lemma dispatch_no_save st line : saves (snd (dispatch decode st line)) = 0.
Proof.
  unfold dispatch.
  destruct (isWordBreak line); [reflexivity|].
  destruct (isLetterBreak line); [reflexivity|].
  destruct (isValidMorse (Str line)); [reflexivity|].
  destruct (matchesDotsDashes line); [reflexivity|].
  destruct (startsWith "BLINK:" line || startsWith "MORSE:" line).
  - destruct (option_map trim (nth_error (split ":" line) 1)) as [m|];
      [destruct (truthy m)|]; reflexivity.
  - destruct (includes "." line || includes "-" line); [|reflexivity].
    destruct (matchMorseRun line); reflexivity.
Qed.

Lemma saves_app a b : saves (a ++ b)%list = saves a + saves b.
Proof. unfold saves. rewrite filter_app, length_app. reflexivity. Qed.

Lemma autoSaveEvents_saves settings st :
  saves (autoSaveEvents settings st) =
  if fires settings (String.length (decodedText st)) then 1 else 0.
Proof.
  unfold autoSaveEvents, fires.
  destruct (autoSave settings), (0 <? String.length (decodedText st))%nat,
    (String.length (decodedText st) mod 10 =? 0)%nat; reflexivity.
Qed.

Lemma handleDataLineWith_saves settings st line :
  line <> "" ->
  saves (snd (handleDataLineWith decode settings st line)) =
  if fires settings
       (String.length
          (decodedText (fst (handleDataLineWith decode settings st line))))
  then 1 else 0.
Proof.
  intros Hne. unfold handleDataLineWith.
  destruct line as [|c r]; [congruence|]. cbn [isEmpty].
  pose proof (dispatch_no_save st (String c r)) as D.
  destruct (dispatch decode st (String c r)) as [st' shown]. cbn [fst snd] in *.
  rewrite !saves_app, D, autoSaveEvents_saves. reflexivity.
Qed.

End InterpreterFacts.

Section TaggedFacts.
Import Js Comm Reading.

Lemma split_head sep s :
  hd_error (split sep s) =
  Some (takeWhile (fun c => negb (Ascii.eqb c sep)) s).
Proof.
  induction s as [|c r IH]; [reflexivity|]. simpl.
  destruct (Ascii.eqb c sep); [reflexivity|]. simpl.
  destruct (split sep r) as [|h t]; [discriminate IH|].
  simpl in *. injection IH as ->. reflexivity.
Qed.

Lemma nth_error_1_consHead c l :
  l <> [] -> nth_error (consHead c l) 1 = nth_error l 1.
Proof. destruct l; [congruence | reflexivity]. Qed.

(** Element 1 of [line.split(':')]: what lies between the first colon and
    the next one, or the end of the line. *)
Lemma split_colon_second line :
  includes ":" line = true ->
  nth_error (split ":" line) 1 = Some (takeWhile notColon (afterFirstColon line)).
Proof.
  induction line as [|c r IH]; [discriminate|].
  cbn [split includes afterFirstColon].
  destruct (Ascii.eqb c ":") eqn:E; cbn [orb].
  - intros _. pose proof (split_head ":" r) as H.
    destruct (split ":" r) as [|h t]; [discriminate H|]. exact H.
  - intros H. rewrite nth_error_1_consHead by apply split_not_nil.
    apply IH, H.
Qed.

Lemma takeWhile_all p s : all p s = true -> takeWhile p s = s.
Proof.
  induction s as [|c r IH]; [reflexivity|]. simpl.
  destruct (p c); [|discriminate]. simpl. intros H. rewrite (IH H). reflexivity.
Qed.

Lemma no_colon_all s : includes ":" s = false -> all notColon s = true.
Proof.
  induction s as [|c r IH]; [reflexivity|]. simpl. unfold notColon at 1.
  destruct (Ascii.eqb c ":"); [discriminate|]. simpl. exact IH.
Qed.

Lemma tagged_dispatch decode st line :
  startsWith "BLINK:" line || startsWith "MORSE:" line = true ->
  dispatch decode st line =
  let morseData := trim (takeWhile notColon (afterFirstColon line)) in
  if truthy morseData
  then (mkState morseData (decodedText st),
        [UpdateBuilding (Pattern morseData)])
  else (st, []).
Proof.
  intros H. unfold dispatch. rewrite H.
  assert (C : includes ":" line = true).
  { apply orb_true_iff in H as [H|H]; apply startsWith_app in H as [rest ->];
      reflexivity. }
  rewrite (split_colon_second _ C). cbn [option_map].
  apply orb_true_iff in H as [H|H]; apply startsWith_app in H as [rest ->];
    reflexivity.
Qed.

End TaggedFacts.

(** C1: on the lines [.] and [/], fed from the empty state, the interpreter
    ends with the text [EE ] and not [E ]; on [-], [|], [.], [/] it ends
    with [TTEE ] and not [TE ].  The pattern kept in [currentBuilding] by
    the valid-Morse branch is decoded once more by the separator that
    follows.  The outcome is the same with the [decodeMorse] of morse.js in
    scope. *)
Theorem retained_pattern_decoded_again :
  forall settings,
    Comm.decodedText (fst (Comm.feed settings Comm.initial ["."; "/"])) = "EE " /\
    Comm.decodedText
      (fst (Comm.feed settings Comm.initial ["-"; "|"; "."; "/"])) = "TTEE " /\
    Comm.decodedText
      (fst (Comm.feedWith Morse.decodeMorse settings Comm.initial ["."; "/"]))
    = "EE " /\
    Comm.decodedText
      (fst (Comm.feedWith Morse.decodeMorse settings Comm.initial
              ["-"; "|"; "."; "/"])) = "TTEE ".
Proof. intros [[|]]; repeat split; reflexivity. Qed.

(** C6 (as stated, refuted): on the line [MORSE:.-:-] the interpreter keeps
    [.-], the text between the first two colons, whereas everything after
    the first colon is [.-:-]. *)
Lemma tagged_payload_stops_at_second_colon :
  let line := "MORSE:.-:-" in
  let st' := fst (Comm.handleDataLine (Comm.mkSettings false) Comm.initial line) in
  Js.startsWith "MORSE:" line = true /\
  Js.trim (Reading.afterFirstColon line) = ".-:-" /\
  Comm.currentBuilding st' = ".-" /\
  Comm.currentBuilding st' <> Js.trim (Reading.afterFirstColon line).
Proof. repeat split; discriminate. Qed.

(** C6 (amended): a line that starts with [BLINK:] or [MORSE:] matches no
    earlier branch.  The interpreter takes the text between the first colon
    and the next colon, or the end of the line where there is no other
    colon, and trims it; if the result is not empty it becomes
    [currentBuilding], otherwise [currentBuilding] stays.  Nothing is
    decoded and [decodedText] does not change.  Without a further colon the
    text taken is all that follows the first colon. *)
Theorem tagged_payload_sets_building settings st line :
  Js.startsWith "BLINK:" line || Js.startsWith "MORSE:" line = true ->
  let payload :=
    Js.trim (Comm.takeWhile notColon (Reading.afterFirstColon line)) in
  let st' := fst (Comm.handleDataLine settings st line) in
  (Comm.isWordBreak line = false /\ Comm.isLetterBreak line = false /\
   Comm.isValidMorse (Js.Str line) = false /\
   Comm.matchesDotsDashes line = false) /\
  Comm.decodedText st' = Comm.decodedText st /\
  Comm.currentBuilding st' =
    (if Js.truthy payload then payload else Comm.currentBuilding st) /\
  (Js.includes ":" (Reading.afterFirstColon line) = false ->
   Comm.takeWhile notColon (Reading.afterFirstColon line) =
   Reading.afterFirstColon line).
Proof.
  intros H payload st'. split; [|split; [|split]].
  - apply orb_true_iff in H as [H|H];
      apply startsWith_app in H as [rest ->]; repeat split; reflexivity.
  - subst st'. unfold Comm.handleDataLine.
    rewrite handleDataLineWith_state, (tagged_dispatch _ _ _ H).
    destruct (Js.isEmpty line); [reflexivity|]. cbv zeta. fold payload.
    destruct (Js.truthy payload); reflexivity.
  - subst st'. unfold Comm.handleDataLine.
    rewrite handleDataLineWith_state, (tagged_dispatch _ _ _ H).
    assert (E : Js.isEmpty line = false).
    { apply orb_true_iff in H as [H|H];
        apply startsWith_app in H as [rest ->]; reflexivity. }
    rewrite E. cbv zeta. fold payload.
    destruct (Js.truthy payload); reflexivity.
  - intros C. apply takeWhile_all, no_colon_all, C.
Qed.

Lemma tagged_payload_sets_building_witness :
  Js.startsWith "BLINK:" "BLINK: ..-" || Js.startsWith "MORSE:" "BLINK: ..-"
  = true /\
  Comm.currentBuilding
    (fst (Comm.handleDataLine (Comm.mkSettings true) (Comm.mkState "." "E")
            "BLINK: ..-")) = "..-" /\
  Comm.decodedText
    (fst (Comm.handleDataLine (Comm.mkSettings true) (Comm.mkState "." "E")
            "BLINK: ..-")) = "E".
Proof.
  assert (H : Js.startsWith "BLINK:" "BLINK: ..-"
              || Js.startsWith "MORSE:" "BLINK: ..-" = true) by reflexivity.
  pose proof (tagged_payload_sets_building (Comm.mkSettings true)
                (Comm.mkState "." "E") "BLINK: ..-" H) as T.
  split; [exact H|]. split.
  - exact (proj1 (proj2 (proj2 T))).
  - exact (proj1 (proj2 T)).
Defined.

(** C9: a line that is no word break, no letter break, not valid Morse and
    not tagged, and that holds neither a dot nor a dash, changes neither
    [decodedText] nor [currentBuilding]. *)
Theorem unrecognized_line_ignored settings st line :
  Comm.isWordBreak line = false ->
  Comm.isLetterBreak line = false ->
  Comm.isValidMorse (Js.Str line) = false ->
  Js.startsWith "BLINK:" line = false ->
  Js.startsWith "MORSE:" line = false ->
  Js.includes "." line = false ->
  Js.includes "-" line = false ->
  fst (Comm.handleDataLine settings st line) = st.
Proof.
  intros W L V B M D H. unfold Comm.handleDataLine.
  rewrite handleDataLineWith_state.
  destruct (Js.isEmpty line); [reflexivity|].
  unfold Comm.dispatch. rewrite W, L, V, B, M, D, H.
  destruct (Comm.matchesDotsDashes line) eqn:P; [|reflexivity].
  apply dots_dashes_are_valid in P. congruence.
Qed.

Lemma unrecognized_line_ignored_witness :
  fst (Comm.handleDataLine (Comm.mkSettings true) (Comm.mkState ".-" "HI")
         "STATUS_READY") = Comm.mkState ".-" "HI".
Proof.
  apply (unrecognized_line_ignored (Comm.mkSettings true)
           (Comm.mkState ".-" "HI") "STATUS_READY"); reflexivity.
Defined.

Section GuardFacts.
Import Js Comm.

(** The guard leaves out a decode result exactly when it is the question
    mark: appending an empty result changes nothing. *)
Lemma appendDecoded_guard decode text pattern :
  appendDecoded decode text pattern =
  if String.eqb (decode (Str pattern)) "?" then text
  else text ++ decode (Str pattern).
Proof.
  unfold appendDecoded. destruct (decode (Str pattern)) as [|c r] eqn:E.
  - simpl. symmetry. apply string_app_empty.
  - cbn [truthy isEmpty negb andb].
    destruct (String.eqb (String c r) "?"); reflexivity.
Qed.

Lemma manualToken_no_guard decode addedText token :
  String.eqb token "/" || String.eqb token "SPACE" = false ->
  isValidMorse (Str token) = true ->
  manualToken decode addedText token = addedText ++ decode (Str token).
Proof. intros B V. unfold manualToken. rewrite B, V. reflexivity. Qed.

Lemma addManualInputWith_frame decode box st :
  currentBuilding (fst (addManualInputWith decode box st)) = currentBuilding st /\
  exists addedText,
    decodedText (fst (addManualInputWith decode box st)) =
    decodedText st ++ addedText.
Proof.
  unfold addManualInputWith.
  destruct box as [content|];
    [|split; [reflexivity | exists ""; symmetry; apply string_app_empty]].
  destruct (isEmpty (trim content));
    [split; [reflexivity | exists ""; symmetry; apply string_app_empty]|].
  destruct (truthy (fold_left (manualToken decode)
                      (splitWhiteSpace (trim content)) "")).
  - split; [reflexivity|]. eexists. reflexivity.
  - split; [reflexivity | exists ""; symmetry; apply string_app_empty].
Qed.

Lemma feedWith_state decode settings st line rest :
  fst (feedWith decode settings st (line :: rest)) =
  fst (feedWith decode settings
         (fst (handleDataLineWith decode settings st line)) rest).
Proof.
  cbn [feedWith].
  destruct (handleDataLineWith decode settings st line) as [st1 ev1].
  cbn [fst]. destruct (feedWith decode settings st1 rest). reflexivity.
Qed.

(** Whatever valid pattern a line carries, a word break that follows
    appends its decoding a second time. *)
Lemma separator_decodes_retained_pattern settings st line :
  isWordBreak line = false ->
  isLetterBreak line = false ->
  isValidMorse (Str line) = true ->
  String.eqb (decodeMorse (Str line)) "?" = false ->
  decodedText (fst (feed settings st [line; "/"])) =
  ((decodedText st ++ decodeMorse (Str line)) ++ decodeMorse (Str line)) ++ " ".
Proof.
  intros W L V Q. unfold feed. rewrite !feedWith_state. cbn [feedWith fst].
  rewrite !handleDataLineWith_state.
  assert (E : isEmpty line = false).
  { destruct line; [discriminate V | reflexivity]. }
  rewrite E. cbn [isEmpty]. unfold dispatch at 1. cbn [isWordBreak String.eqb Ascii.eqb orb fst].
  unfold dispatch. rewrite W, L, V. cbn [fst decodedText currentBuilding].
  unfold finalizeBuilding. cbn [currentBuilding decodedText].
  unfold truthy. rewrite E. cbn [negb].
  rewrite !appendDecoded_guard, Q. reflexivity.
Qed.

End GuardFacts.

(** C10: the guard of the valid-Morse branch leaves out a decode result only
    when it is exactly the question mark.  The line [.- ......] decodes to
    [A?] and is appended with its question mark; [addManualInput] appends
    what each valid token decodes to with no guard, so the token [......]
    appends a question mark.  States whose [decodedText] holds a question
    mark are therefore reachable, by lines and by manual entry. *)
Theorem question_mark_guard_is_exact :
  (forall settings st line,
     Comm.isWordBreak line = false ->
     Comm.isLetterBreak line = false ->
     Comm.isValidMorse (Js.Str line) = true ->
     Comm.decodedText (fst (Comm.handleDataLine settings st line)) =
     if String.eqb (Comm.decodeMorse (Js.Str line)) "?"
     then Comm.decodedText st
     else Comm.decodedText st ++ Comm.decodeMorse (Js.Str line)) /\
  Comm.decodeMorse (Js.Str ".- ......") = "A?" /\
  (forall settings st,
     Comm.decodedText (fst (Comm.handleDataLine settings st ".- ......")) =
     Comm.decodedText st ++ "A?") /\
  (forall addedText token,
     String.eqb token "/" || String.eqb token "SPACE" = false ->
     Comm.isValidMorse (Js.Str token) = true ->
     Comm.manualToken Comm.decodeMorse addedText token =
     addedText ++ Comm.decodeMorse (Js.Str token)) /\
  (forall st,
     Comm.decodedText (fst (Comm.addManualInput (Some "......") st)) =
     Comm.decodedText st ++ "?") /\
  (forall settings,
     Js.includes "?"
       (Comm.decodedText
          (fst (Comm.feed settings Comm.initial [".- ......"]))) = true) /\
  Js.includes "?"
    (Comm.decodedText (fst (Comm.addManualInput (Some "......") Comm.initial)))
  = true.
Proof.
  split; [|split; [|split; [|split; [|split; [|split]]]]].
  - intros settings st line W L V. unfold Comm.handleDataLine.
    rewrite handleDataLineWith_state.
    destruct (Js.isEmpty line) eqn:E.
    { destruct line; [discriminate V | discriminate E]. }
    unfold Comm.dispatch. rewrite W, L, V. cbn [fst Comm.decodedText].
    apply appendDecoded_guard.
  - reflexivity.
  - intros settings st. reflexivity.
  - intros addedText token. apply manualToken_no_guard.
  - intros st. reflexivity.
  - intros [[|]]; reflexivity.
  - reflexivity.
Qed.

Lemma question_mark_guard_is_exact_witness :
  Comm.decodedText
    (fst (Comm.handleDataLine (Comm.mkSettings false) (Comm.mkState "" "HI")
            "..--.. ..--..")) = "HI??" /\
  Comm.decodedText
    (fst (Comm.handleDataLine (Comm.mkSettings false) (Comm.mkState "" "HI")
            "..--..")) = "HI".
Proof.
  split.
  - exact (proj1 question_mark_guard_is_exact (Comm.mkSettings false)
             (Comm.mkState "" "HI") "..--.. ..--.."
             eq_refl eq_refl eq_refl).
  - exact (proj1 question_mark_guard_is_exact (Comm.mkSettings false)
             (Comm.mkState "" "HI") "..--.." eq_refl eq_refl eq_refl).
Defined.

(** C8 (as stated, refuted): the manual entry [.- / -...] appends [A B],
    which is not [A S]: the token [-...] is the letter B. *)
Lemma manual_entry_appends_A_B :
  Comm.decodedText (fst (Comm.addManualInput (Some ".- / -...") Comm.initial))
  = "A B" /\
  Comm.decodedText (fst (Comm.addManualInput (Some ".- / -...") Comm.initial))
  <> "A S".
Proof. split; [reflexivity | discriminate]. Qed.

(** C8 (amended): the manual entry [.- / -...] appends exactly [A B] to
    [decodedText]: the tokens [.-] and [-...] pass [isValidMorse] and decode
    to A and B, the token [/] gives the word gap as one space.  Manual entry
    never changes [currentBuilding] and only ever appends to [decodedText],
    whatever is typed. *)
Theorem manual_entry_appends_tokens :
  (forall st,
     fst (Comm.addManualInput (Some ".- / -...") st) =
     Comm.mkState (Comm.currentBuilding st) (Comm.decodedText st ++ "A B")) /\
  Js.splitWhiteSpace (Js.trim ".- / -...") = [".-"; "/"; "-..."] /\
  Comm.isValidMorse (Js.Str ".-") = true /\
  Comm.isValidMorse (Js.Str "-...") = true /\
  Comm.decodeMorse (Js.Str ".-") = "A" /\
  Comm.decodeMorse (Js.Str "-...") = "B" /\
  (forall box st,
     Comm.currentBuilding (fst (Comm.addManualInput box st)) =
     Comm.currentBuilding st /\
     exists addedText,
       Comm.decodedText (fst (Comm.addManualInput box st)) =
       Comm.decodedText st ++ addedText).
Proof.
  repeat split; try reflexivity.
  - apply addManualInputWith_frame.
  - apply addManualInputWith_frame.
Qed.

(** C2 (as stated, refuted): from a text of nine characters, the lines [.]
    and [PONG] pass the length 10 once and save twice, the second time on a
    line that left the text as it was; the line [. .] passes the length 10
    once, from 9 to 11, and saves not at all. *)
Lemma auto_save_is_not_once_per_crossing :
  let settings := Comm.mkSettings true in
  let st := Comm.mkState "" "ABCDEFGHI" in
  (Reading.crossings 9 (lengthsAfter settings st ["."; "PONG"]) = 1 /\
   saves (snd (Comm.feed settings st ["."; "PONG"])) = 2) /\
  (Reading.crossings 9 (lengthsAfter settings st [". ."]) = 1 /\
   saves (snd (Comm.feed settings st [". ."])) = 0).
Proof. repeat split. Qed.

(** C2 (amended): with [autoSave] on, the save call is made after a line
    exactly when [decodedText.length] is then a positive multiple of ten, and
    never with [autoSave] off; over a run of lines there are as many saves as
    there are lines after which the length is a positive multiple of ten.  In
    particular the line that takes the length from 9 to 10 saves once. *)
Theorem auto_save_on_multiples_of_ten :
  (forall settings st line,
     line <> "" ->
     saves (snd (Comm.handleDataLine settings st line)) =
     if fires settings
          (String.length
             (Comm.decodedText (fst (Comm.handleDataLine settings st line))))
     then 1 else 0) /\
  (forall settings st lines,
     Forall (fun line => line <> "") lines ->
     saves (snd (Comm.feed settings st lines)) =
     List.length (filter (fires settings) (lengthsAfter settings st lines))) /\
  (forall st line,
     line <> "" ->
     String.length (Comm.decodedText st) = 9 ->
     String.length
       (Comm.decodedText
          (fst (Comm.handleDataLine (Comm.mkSettings true) st line))) = 10 ->
     saves (snd (Comm.handleDataLine (Comm.mkSettings true) st line)) = 1).
Proof.
  split; [|split].
  - intros settings st line H. apply handleDataLineWith_saves, H.
  - intros settings st lines H. revert st.
    induction H as [|line rest Hne Hrest IH]; intros st; [reflexivity|].
    unfold Comm.feed in *. cbn [Comm.feedWith lengthsAfter filter].
    pose proof (handleDataLineWith_saves Comm.decodeMorse settings st line Hne)
      as S1.
    unfold Comm.handleDataLine.
    destruct (Comm.handleDataLineWith Comm.decodeMorse settings st line)
      as [st1 ev1].
    specialize (IH st1).
    destruct (Comm.feedWith Comm.decodeMorse settings st1 rest) as [st2 ev2].
    cbn [fst snd] in *. rewrite saves_app, S1, IH.
    destruct (fires settings (String.length (Comm.decodedText st1)));
      reflexivity.
  - intros st line H _ L.
    unfold Comm.handleDataLine in *.
    rewrite (handleDataLineWith_saves _ _ _ _ H), L. reflexivity.
Qed.

Lemma auto_save_on_multiples_of_ten_witness :
  "." <> "" /\
  saves (snd (Comm.handleDataLine (Comm.mkSettings true)
                (Comm.mkState "" "ABCDEFGHI") ".")) = 1.
Proof.
  assert (H : "." <> "") by discriminate.
  split; [exact H|].
  exact (proj2 (proj2 auto_save_on_multiples_of_ten)
           (Comm.mkState "" "ABCDEFGHI") "." H eq_refl eq_refl).
Defined.

Section RunFacts.
Import Js Comm Reading.

Lemma matchMorseRun_takeWhile c r :
  Morse.isMorseChar c = true ->
  matchMorseRun (String c r) = Some (takeWhile Morse.isMorseChar (String c r)).
Proof. intros H. simpl. rewrite H. reflexivity. Qed.

(** The match of the unanchored pattern is the first of the maximal runs. *)
Lemma matchMorseRun_first line :
  matchMorseRun line = hd_error (morseRuns line).
Proof.
  induction line as [|c r IH]; [reflexivity|].
  cbn [matchMorseRun morseRuns].
  destruct (Morse.isMorseChar c) eqn:C; [|exact IH].
  destruct r as [|d r']; [reflexivity|].
  cbn [takeWhile]. destruct (Morse.isMorseChar d) eqn:D; [|reflexivity].
  rewrite (matchMorseRun_takeWhile _ _ D) in IH.
  cbn [takeWhile] in IH. rewrite D in IH.
  destruct (morseRuns (String d r')) as [|h t]; [discriminate IH|].
  simpl in IH |- *. injection IH as <-. reflexivity.
Qed.

Lemma matchMorseRun_found c line :
  Morse.isMorseChar c = true -> includes c line = true ->
  matchMorseRun line <> None.
Proof.
  intros C. induction line as [|a r IH]; [discriminate|]. simpl.
  destruct (Ascii.eqb_spec a c) as [->|_].
  - rewrite C. discriminate.
  - simpl. intros H. destruct (Morse.isMorseChar a); [discriminate | auto].
Qed.

Lemma takeWhile_decompose p s :
  exists post,
    s = takeWhile p s ++ post /\ all p (takeWhile p s) = true /\
    match post with EmptyString => True | String d _ => p d = false end.
Proof.
  induction s as [|c r [post [E [A P]]]].
  - exists "". repeat split.
  - simpl. destruct (p c) eqn:C.
    + exists post. simpl. rewrite C, A. repeat split; [|exact P].
      rewrite <- E. reflexivity.
    + exists (String c r). repeat split. exact C.
Qed.

(** What the pattern matches: after a stretch without pattern characters, a
    non-empty stretch of pattern characters that cannot be extended. *)
Lemma matchMorseRun_decompose line run :
  matchMorseRun line = Some run ->
  exists pre post,
    line = pre ++ run ++ post /\
    all notMorseChar pre = true /\
    run <> "" /\ all Morse.isMorseChar run = true /\
    endsRun post = true.
Proof.
  induction line as [|c r IH]; [discriminate|]. simpl.
  destruct (Morse.isMorseChar c) eqn:C.
  - intros [= <-].
    destruct (takeWhile_decompose Morse.isMorseChar r) as [post [E [A P]]].
    exists "", post. simpl. rewrite C, A. repeat split.
    + rewrite <- E. reflexivity.
    + discriminate.
    + destruct post as [|d post']; [reflexivity|]. simpl. rewrite P. reflexivity.
  - intros H. destruct (IH H) as [pre [post [E [A [N [R P]]]]]].
    exists (String c pre), post. simpl. unfold notMorseChar at 1.
    rewrite C, A. repeat split; try assumption.
    rewrite <- E. reflexivity.
Qed.

End RunFacts.

(** C7 (as stated, refuted): on [x.y--z] the longest run of pattern
    characters is [--], yet [currentBuilding] becomes [.], the first run. *)
Lemma fallback_does_not_take_longest_run :
  let settings := Comm.mkSettings false in
  let line := "x.y--z" in
  (Comm.isWordBreak line = false /\ Comm.isLetterBreak line = false /\
   Comm.isValidMorse (Js.Str line) = false /\
   Js.startsWith "BLINK:" line = false /\ Js.startsWith "MORSE:" line = false /\
   Js.includes "." line = true) /\
  Reading.longestRun line = "--" /\
  Comm.currentBuilding (fst (Comm.handleDataLine settings Comm.initial line))
  = "." /\
  Comm.currentBuilding (fst (Comm.handleDataLine settings Comm.initial line))
  <> Reading.longestRun line.
Proof. repeat split. discriminate. Qed.

(** C7 (amended): for a line that reaches the last branch and holds a dot or
    a dash, and whose first run of characters of the class is not white space
    only, the interpreter sets [currentBuilding] to that first run, trimmed:
    the leftmost match of the pattern, not the longest run.  The line is a
    stretch without such characters, then the run, non-empty and not
    extendable, then the rest.  [decodedText] does not change. *)
Theorem fallback_takes_first_run settings st line :
  Comm.isWordBreak line = false ->
  Comm.isLetterBreak line = false ->
  Comm.isValidMorse (Js.Str line) = false ->
  Js.startsWith "BLINK:" line = false ->
  Js.startsWith "MORSE:" line = false ->
  Js.includes "." line || Js.includes "-" line = true ->
  Js.truthy (Js.trim (Reading.firstRun line)) = true ->
  let st' := fst (Comm.handleDataLine settings st line) in
  exists pre run post,
    line = pre ++ run ++ post /\
    Js.all Reading.notMorseChar pre = true /\
    Js.all Morse.isMorseChar run = true /\
    Reading.endsRun post = true /\
    Reading.firstRun line = run /\
    Comm.currentBuilding st' = Js.trim run /\
    Comm.currentBuilding st' <> "" /\
    Comm.decodedText st' = Comm.decodedText st.
Proof.
  intros W L V B M D F st'. subst st'. unfold Comm.handleDataLine.
  rewrite handleDataLineWith_state.
  assert (E : Js.isEmpty line = false).
  { destruct line; [discriminate D | reflexivity]. }
  rewrite E. unfold Comm.dispatch. rewrite W, L, V, B, M, D.
  assert (P : Comm.matchesDotsDashes line = false).
  { destruct (Comm.matchesDotsDashes line) eqn:P; [|reflexivity].
    apply dots_dashes_are_valid in P. congruence. }
  rewrite P. cbn [orb].
  unfold Reading.firstRun in *.
  destruct (Comm.matchMorseRun line) as [run|] eqn:R.
  - pose proof R as R'. rewrite matchMorseRun_first in R'.
    assert (FR : hd "" (Reading.morseRuns line) = run).
    { destruct (Reading.morseRuns line); [discriminate R'|].
      injection R' as ->. reflexivity. }
    rewrite FR in F.
    destruct (matchMorseRun_decompose _ _ R) as [pre [post [H1 [H2 [H3 [H4 H5]]]]]].
    exists pre, run, post. cbn [fst Comm.currentBuilding Comm.decodedText].
    assert (N : Js.trim run <> "").
    { intros Z. rewrite Z in F. discriminate F. }
    repeat split; assumption.
  - rewrite matchMorseRun_first in R.
    destruct (Reading.morseRuns line); [discriminate F | discriminate R].
Qed.

Lemma fallback_takes_first_run_witness :
  exists pre run post,
    "Building: .-" = pre ++ run ++ post /\
    Js.all Reading.notMorseChar pre = true /\
    Js.all Morse.isMorseChar run = true /\
    Reading.endsRun post = true /\
    Reading.firstRun "Building: .-" = run /\
    Comm.currentBuilding
      (fst (Comm.handleDataLine (Comm.mkSettings false) (Comm.mkState "" "E")
              "Building: .-")) = Js.trim run /\
    Comm.currentBuilding
      (fst (Comm.handleDataLine (Comm.mkSettings false) (Comm.mkState "" "E")
              "Building: .-")) <> "" /\
    Comm.decodedText
      (fst (Comm.handleDataLine (Comm.mkSettings false) (Comm.mkState "" "E")
              "Building: .-")) = "E".
Proof.
  exact (fallback_takes_first_run (Comm.mkSettings false)
           (Comm.mkState "" "E") "Building: .-"
           eq_refl eq_refl eq_refl eq_refl eq_refl eq_refl eq_refl).
Defined.

(** ** The two transports *)

Section TransportFacts.
Import Js Comm.

Lemma trimmed_lines_settled lines :
  Forall settled (filter truthy (map trim lines)).
Proof.
  apply Forall_forall. intros x H. apply filter_In in H as [H T].
  apply in_map_iff in H as [y [<- _]]. split; [exact T | apply trim_idem].
Qed.

Lemma settled_again lines :
  Forall settled lines -> map trim (filter truthy lines) = lines.
Proof.
  induction 1 as [|x l [T E] _ IH]; [reflexivity|].
  simpl. rewrite T. simpl. rewrite E, IH. reflexivity.
Qed.

Lemma bluetoothLines_terminated body :
  bluetoothLines (body ++ String LF "") =
  filter truthy (map trim (split LF body)).
Proof.
  unfold bluetoothLines. rewrite split_snoc_sep, map_app, filter_app.
  simpl. apply app_nil_r.
Qed.

Lemma transform_terminated body :
  transform newTransformer (body ++ String LF "") =
  (newTransformer, bluetoothLines (body ++ String LF "")).
Proof.
  rewrite bluetoothLines_terminated. unfold transform. cbn [chunks newTransformer].
  change ("" ++ (body ++ String LF "")) with (body ++ String LF "").
  rewrite split_snoc_sep, last_last, removelast_last. reflexivity.
Qed.

Lemma pipeThrough_terminated input :
  Forall terminated input ->
  pipeThrough newTransformer input = (newTransformer, bluetoothForwarded input).
Proof.
  induction 1 as [|chunk rest [body ->] _ IH]; [reflexivity|].
  cbn [pipeThrough]. rewrite transform_terminated, IH. reflexivity.
Qed.

Lemma bluetoothForwarded_settled input :
  Forall settled (bluetoothForwarded input).
Proof.
  unfold bluetoothForwarded. induction input as [|chunk rest IH]; simpl.
  - constructor.
  - apply Forall_app. split; [apply trimmed_lines_settled | exact IH].
Qed.

(** A notification is handled like a serial chunk with a line feed put
    after it: its end also ends a line. *)
Lemma notification_ends_a_line closed input :
  bluetoothForwarded input =
  serialLines closed (map (fun chunk => chunk ++ String LF "") input).
Proof.
  assert (T : Forall terminated (map (fun chunk => chunk ++ String LF "") input)).
  { apply Forall_forall. intros x H. apply in_map_iff in H as [c [<- _]].
    exists c. reflexivity. }
  unfold serialLines. rewrite (pipeThrough_terminated _ T).
  assert (F : (if closed then flush newTransformer else []) = [])
    by (destruct closed; reflexivity).
  rewrite F, app_nil_r, (settled_again _ (bluetoothForwarded_settled _)).
  clear T. unfold bluetoothForwarded.
  induction input as [|c r IH]; [reflexivity|].
  simpl. rewrite IH, bluetoothLines_terminated. reflexivity.
Qed.

End TransportFacts.

(** C3 (as stated, refuted): the chunks [.] and [-] followed by a line feed
    reach the interpreter as the two lines [.] and [-] over Bluetooth and as
    the one line [.-] over the serial port. *)
Lemma split_line_differs_between_transports :
  let input := ["."; String "-" (String Comm.LF "")] in
  Comm.bluetoothForwarded input = ["."; "-"] /\
  Comm.serialLines true input = [".-"] /\
  Comm.bluetoothForwarded input <> Comm.serialLines true input.
Proof. repeat split. discriminate. Qed.

(** C3 (amended): when every chunk ends with a line feed, so that no line
    is split between two chunks, the Bluetooth handler and the serial
    transformer pass the same trimmed non-empty lines, in the same order, to
    the interpreter, which then ends in the same state with the same trace;
    the serial side holds nothing back for the end of the stream. *)
Theorem transports_agree_on_whole_lines input :
  Forall (fun chunk => exists body, chunk = body ++ String Comm.LF "") input ->
  (forall closed, Comm.serialLines closed input = Comm.bluetoothForwarded input) /\
  fst (Comm.pipeThrough Comm.newTransformer input) = Comm.newTransformer /\
  (forall settings st closed,
     Comm.feed settings st (Comm.serialLines closed input) =
     Comm.feed settings st (Comm.bluetoothForwarded input)).
Proof.
  intros H.
  assert (S : forall closed,
             Comm.serialLines closed input = Comm.bluetoothForwarded input).
  { intros closed. unfold Comm.serialLines.
    rewrite (pipeThrough_terminated _ H).
    assert (F : (if closed then Comm.flush Comm.newTransformer else []) = [])
      by (destruct closed; reflexivity).
    rewrite F, app_nil_r.
    apply settled_again, bluetoothForwarded_settled. }
  split; [exact S|]. split.
  - rewrite (pipeThrough_terminated _ H). reflexivity.
  - intros settings st closed. rewrite S. reflexivity.
Qed.

Lemma transports_agree_on_whole_lines_witness :
  Comm.serialLines true
    [String "." (String "-" (String Comm.LF "")); String "/" (String Comm.LF "")]
  = Comm.bluetoothForwarded
      [String "." (String "-" (String Comm.LF ""));
       String "/" (String Comm.LF "")].
Proof.
  refine (proj1 (transports_agree_on_whole_lines
                   [String "." (String "-" (String Comm.LF ""));
                    String "/" (String Comm.LF "")] _) true).
  repeat constructor.
  - exists ".-". reflexivity.
  - exists "/". reflexivity.
Defined.

(** * Further properties *)

(** ** Tokens, joins and clean strings *)

Section MoreTokenFacts.
Import Js Reading.

Lemma tokens_not_nil s : atBoundary s = false -> tokens s <> [].
Proof.
  destruct s as [|c r]; [discriminate|]. simpl. intros W. rewrite W.
  destruct (atBoundary r); [discriminate|].
  destruct (tokens r); discriminate.
Qed.

Lemma atBoundary_app a w b :
  isWhiteSpace w = true -> atBoundary (a ++ String w b) = atBoundary a.
Proof. intros W. destruct a; simpl; [exact W | reflexivity]. Qed.

(** White space between two texts separates their tokens. *)
Lemma tokens_app_ws a w b :
  isWhiteSpace w = true ->
  tokens (a ++ String w b) = (tokens a ++ tokens b)%list.
Proof.
  intros W. induction a as [|c a IH]; simpl.
  - rewrite W. reflexivity.
  - destruct (isWhiteSpace c); [exact IH|].
    rewrite (atBoundary_app _ _ _ W), IH.
    destruct (atBoundary a) eqn:B; [reflexivity|].
    apply consHead_app, tokens_not_nil, B.
Qed.

Lemma tokens_clean t : clean t = true -> tokens t = [t].
Proof.
  unfold clean. intros H. apply andb_true_iff in H as [T A].
  destruct t as [|c r]; [discriminate T|]. clear T.
  revert c A. induction r as [|d r IH]; intros c A; simpl in A.
  - apply andb_true_iff in A as [C _]. apply negb_true_iff in C.
    simpl. rewrite C. reflexivity.
  - apply andb_true_iff in A as [C A]. apply negb_true_iff in C.
    specialize (IH d A).
    cbn [tokens atBoundary] in *. rewrite C.
    simpl in A. apply andb_true_iff in A as [D _]. apply negb_true_iff in D.
    rewrite D in *. rewrite IH. reflexivity.
Qed.

Lemma join_cons sep x y l : join sep (x :: y :: l) = x ++ sep ++ join sep (y :: l).
Proof. reflexivity. Qed.

Lemma string_app_assoc (a b c : string) : (a ++ b) ++ c = a ++ (b ++ c).
Proof. induction a; simpl; [|rewrite IHa]; reflexivity. Qed.

Lemma join_empty_app l1 l2 :
  join "" (l1 ++ l2)%list = join "" l1 ++ join "" l2.
Proof.
  induction l1 as [|x l1 IH]; [reflexivity|].
  assert (C : forall l, join "" (x :: l) = x ++ join "" l).
  { intros [|y l]; [symmetry; apply string_app_empty | reflexivity]. }
  cbn [app]. rewrite !C, IH, string_app_assoc. reflexivity.
Qed.

Lemma join_empty_cons x l : join "" (x :: l) = x ++ join "" l.
Proof. apply (join_empty_app [x] l). Qed.

(** Joining clean tokens with single spaces and cutting the text into
    tokens again gives the tokens back. *)
Lemma tokens_join l :
  Forall (fun t => clean t = true) l -> tokens (join " " l) = l.
Proof.
  induction 1 as [|t l T _ IH]; [reflexivity|].
  destruct l as [|u l]; [apply tokens_clean, T|].
  rewrite join_cons. cbn [append].
  rewrite (tokens_app_ws t " " _ eq_refl), IH, (tokens_clean _ T). reflexivity.
Qed.





End MoreTokenFacts.

(** ** The codec on whole texts *)

Section TextCodecFacts.
Import Js Morse Reading.







End TextCodecFacts.




Section DecodeShapeFacts.
Import Js Morse Reading.

Lemma decodeLetter_length t letter :
  Forall (fun entry => String.length (snd entry) = 1) t ->
  own objectPrototype letter = None ->
  String.length (decodeLetter t letter) = 1.
Proof.
  intros H P. unfold decodeLetter, get.
  destruct (String.eqb letter "/"); [reflexivity|].
  destruct (own t letter) as [v|] eqn:G.
  - apply own_In in G. pose proof (proj1 (Forall_forall _ _) H _ G) as L.
    cbn [snd] in L. cbn [orElse]. destruct (truthy v); [exact L | reflexivity].
  - rewrite P. reflexivity.
Qed.

Lemma pattern_not_inherited k :
  all isMorseChar k = true -> own objectPrototype k = None.
Proof.
  intros A. destruct (own objectPrototype k) as [v|] eqn:O; [|reflexivity].
  destruct (inherited_facts _ _ O) as [N _]. congruence.
Qed.

Lemma string_length_app a b :
  String.length (a ++ b) = String.length a + String.length b.
Proof. induction a; simpl; [|rewrite IHa]; reflexivity. Qed.

Lemma join_units_length (f : string -> string) l :
  Forall (fun x => String.length (f x) = 1) l ->
  String.length (join "" (map f l)) = List.length l.
Proof.
  induction 1 as [|x l X _ IH]; [reflexivity|].
  cbn [map]. rewrite join_empty_cons, string_length_app, X, IH. reflexivity.
Qed.

Lemma MORSE_CODE_units :
  Forall (fun entry => String.length (snd entry) = 1) MORSE_CODE.
Proof. unfold MORSE_CODE. repeat constructor. Qed.

Lemma MORSE_CODE_MAP_units :
  Forall (fun entry => String.length (snd entry) = 1) Comm.MORSE_CODE_MAP.
Proof. unfold Comm.MORSE_CODE_MAP. repeat constructor. Qed.

End DecodeShapeFacts.

(** X3: [decodeMorse] decodes piecewise: for two patterns with a white-space
    character between them it returns what it returns for the first followed
    by what it returns for the second, and white space around a pattern does
    not change the result.  The same holds for the copy in
    communication.js. *)
Theorem decode_is_piecewise :
  (forall a w b,
     Js.isWhiteSpace w = true ->
     Morse.decodeMorse (Js.Str (a ++ String w b)) =
     Morse.decodeMorse (Js.Str a) ++ Morse.decodeMorse (Js.Str b)) /\
  (forall a w b,
     Js.isWhiteSpace w = true ->
     Comm.decodeMorse (Js.Str (a ++ String w b)) =
     Comm.decodeMorse (Js.Str a) ++ Comm.decodeMorse (Js.Str b)) /\
  (forall s,
     Morse.decodeMorse (Js.Str (Js.trim s)) = Morse.decodeMorse (Js.Str s)) /\
  (forall s,
     Comm.decodeMorse (Js.Str (Js.trim s)) = Comm.decodeMorse (Js.Str s)).
Proof.
  unfold Morse.decodeMorse, Comm.decodeMorse.
  repeat split; intros;
    rewrite !decodeMorseOver_tokens;
    try (rewrite tokens_app_ws by assumption;
         rewrite map_app; apply join_empty_app);
    rewrite tokens_trim; reflexivity.
Qed.

Lemma decode_is_piecewise_witness :
  Morse.decodeMorse (Js.Str ("... --- ..." ++ String " "%char "/ .-.-.-")) =
  Morse.decodeMorse (Js.Str "... --- ...") ++ Morse.decodeMorse (Js.Str "/ .-.-.-").
Proof.
  exact (proj1 decode_is_piecewise "... --- ..." " "%char "/ .-.-.-" eq_refl).
Defined.

(** ** The interpreter over runs of lines *)

Section RunOfLinesFacts.
Import Js Comm.

Lemma appendDecoded_suffix decode text pattern :
  exists suffix, appendDecoded decode text pattern = text ++ suffix.
Proof.
  rewrite appendDecoded_guard.
  destruct (String.eqb (decode (Str pattern)) "?").
  - exists "". symmetry. apply string_app_empty.
  - eexists. reflexivity.
Qed.

Lemma finalizeBuilding_suffix decode st :
  exists suffix, finalizeBuilding decode st = decodedText st ++ suffix.
Proof.
  unfold finalizeBuilding. destruct (truthy (currentBuilding st)).
  - apply appendDecoded_suffix.
  - exists "". symmetry. apply string_app_empty.
Qed.

Lemma dispatch_suffix decode st line :
  exists suffix,
    decodedText (fst (dispatch decode st line)) = decodedText st ++ suffix.
Proof.
  assert (N : exists suffix, decodedText st = decodedText st ++ suffix).
  { exists "". symmetry. apply string_app_empty. }
  unfold dispatch.
  destruct (isWordBreak line).
  { destruct (finalizeBuilding_suffix decode st) as [x E]. cbn [fst decodedText].
    rewrite E, string_app_assoc. eexists. reflexivity. }
  destruct (isLetterBreak line); [apply finalizeBuilding_suffix|].
  destruct (isValidMorse (Str line)); [apply appendDecoded_suffix|].
  destruct (matchesDotsDashes line); [exact N|].
  destruct (startsWith "BLINK:" line || startsWith "MORSE:" line).
  - destruct (option_map trim (nth_error (split ":" line) 1)) as [m|];
      [destruct (truthy m)|]; exact N.
  - destruct (includes "." line || includes "-" line); [|exact N].
    destruct (matchMorseRun line); exact N.
Qed.

Lemma dispatch_frame decode st line :
  isWordBreak line = false -> isLetterBreak line = false ->
  isValidMorse (Str line) = false ->
  decodedText (fst (dispatch decode st line)) = decodedText st.
Proof.
  intros W L V. unfold dispatch. rewrite W, L, V.
  destruct (matchesDotsDashes line); [reflexivity|].
  destruct (startsWith "BLINK:" line || startsWith "MORSE:" line).
  - destruct (option_map trim (nth_error (split ":" line) 1)) as [m|];
      [destruct (truthy m)|]; reflexivity.
  - destruct (includes "." line || includes "-" line); [|reflexivity].
    destruct (matchMorseRun line); reflexivity.
Qed.

Lemma letter_break_not_word_break line :
  isLetterBreak line = true -> isWordBreak line = false.
Proof.
  unfold isLetterBreak. intros H.
  apply orb_true_iff in H as [H|H]; [apply orb_true_iff in H as [H|H]|];
    apply String.eqb_eq in H; subst; reflexivity.
Qed.

Lemma dots_dashes_no_break line :
  matchesDotsDashes line = true ->
  isWordBreak line = false /\ isLetterBreak line = false /\
  String.eqb line "/" = false /\ clean line = true.
Proof.
  unfold matchesDotsDashes. intros H. apply andb_true_iff in H as [T A].
  assert (C : clean line = true).
  { unfold clean. rewrite T. simpl. clear T.
    induction line as [|c r IH]; [reflexivity|]. simpl in *.
    apply andb_true_iff in A as [D A]. rewrite (IH A), andb_true_r.
    unfold isDotOrDash in D.
    apply orb_true_iff in D as [D|D]; apply Ascii.eqb_eq in D; subst;
      reflexivity. }
  destruct line as [|c r]; [discriminate T|]. simpl in A.
  apply andb_true_iff in A as [D _]. unfold isDotOrDash in D.
  apply orb_true_iff in D as [D|D]; apply Ascii.eqb_eq in D; subst;
    repeat split; try reflexivity; exact C.
Qed.

Lemma MORSE_CODE_MAP_letters :
  Forall (fun entry => truthy (snd entry) = true /\
                       String.eqb (snd entry) "?" = false)
         MORSE_CODE_MAP.
Proof. unfold MORSE_CODE_MAP. repeat constructor. Qed.

End RunOfLinesFacts.

(** X5: over any run of lines the interpreter only ever appends to
    [decodedText]: the text before the run is a prefix of the text after
    it. *)
Theorem decoded_text_only_grows settings st lines :
  exists suffix,
    Comm.decodedText (fst (Comm.feed settings st lines)) =
    Comm.decodedText st ++ suffix.
Proof.
  unfold Comm.feed. revert st. induction lines as [|line rest IH]; intros st.
  - exists "". symmetry. apply string_app_empty.
  - rewrite feedWith_state.
    destruct (IH (fst (Comm.handleDataLineWith Comm.decodeMorse settings st line)))
      as [x E].
    rewrite E, handleDataLineWith_state.
    destruct (Js.isEmpty line); [exists x; reflexivity|].
    destruct (dispatch_suffix Comm.decodeMorse st line) as [y F].
    rewrite F, string_app_assoc. eexists. reflexivity.
Qed.

(** X6: a line that is neither a separator nor valid Morse never changes
    [decodedText], whichever of the remaining branches handles it; only
    [currentBuilding] can change on such a line. *)
Theorem only_separators_and_patterns_decode settings st line :
  Comm.isWordBreak line = false ->
  Comm.isLetterBreak line = false ->
  Comm.isValidMorse (Js.Str line) = false ->
  Comm.decodedText (fst (Comm.handleDataLine settings st line)) =
  Comm.decodedText st.
Proof.
  intros W L V. unfold Comm.handleDataLine. rewrite handleDataLineWith_state.
  destruct (Js.isEmpty line); [reflexivity|]. apply dispatch_frame; assumption.
Qed.

Lemma only_separators_and_patterns_decode_witness :
  Comm.decodedText
    (fst (Comm.handleDataLine (Comm.mkSettings true) (Comm.mkState "-" "HI")
            "Building: .-")) = "HI".
Proof.
  exact (only_separators_and_patterns_decode (Comm.mkSettings true)
           (Comm.mkState "-" "HI") "Building: .-" eq_refl eq_refl eq_refl).
Defined.

(** X7: a separator line leaves [currentBuilding] empty, so that a letter
    break right after it changes nothing and a word break right after it
    adds exactly one space. *)
Theorem separator_settles_state settings st sep :
  Comm.isWordBreak sep || Comm.isLetterBreak sep = true ->
  let st1 := fst (Comm.handleDataLine settings st sep) in
  Comm.currentBuilding st1 = "" /\
  (forall line, Comm.isLetterBreak line = true ->
     fst (Comm.handleDataLine settings st1 line) = st1) /\
  (forall line, Comm.isWordBreak line = true ->
     fst (Comm.handleDataLine settings st1 line) =
     Comm.mkState "" (Comm.decodedText st1 ++ " ")).
Proof.
  intros H st1.
  assert (B : Comm.currentBuilding st1 = "").
  { subst st1. unfold Comm.handleDataLine. rewrite handleDataLineWith_state.
    assert (E : Js.isEmpty sep = false).
    { destruct sep; [discriminate H | reflexivity]. }
    rewrite E. unfold Comm.dispatch.
    destruct (Comm.isWordBreak sep); [reflexivity|].
    simpl in H. rewrite H. reflexivity. }
  split; [exact B|]. destruct st1 as [building text]. cbn in B. subst building.
  split; intros line L.
  - unfold Comm.handleDataLine. rewrite handleDataLineWith_state.
    assert (E : Js.isEmpty line = false).
    { destruct line; [discriminate L | reflexivity]. }
    rewrite E. unfold Comm.dispatch.
    rewrite (letter_break_not_word_break _ L), L. reflexivity.
  - unfold Comm.handleDataLine. rewrite handleDataLineWith_state.
    assert (E : Js.isEmpty line = false).
    { destruct line; [discriminate L | reflexivity]. }
    rewrite E. unfold Comm.dispatch. rewrite L. reflexivity.
Qed.

Lemma separator_settles_state_witness :
  Comm.currentBuilding
    (fst (Comm.handleDataLine (Comm.mkSettings false) (Comm.mkState ".-" "HI")
            "WORD_END")) = "".
Proof.
  exact (proj1 (separator_settles_state (Comm.mkSettings false)
                  (Comm.mkState ".-" "HI") "WORD_END" eq_refl)).
Defined.

(** X8: a line made of dots and dashes only is decoded at once, by the
    valid-Morse branch: it becomes [currentBuilding], and [decodedText] gets
    the letter the table has for it, or nothing when the table has none (the
    question mark is left out). *)
Theorem pattern_line_decoded_at_once settings st line :
  Comm.matchesDotsDashes line = true ->
  let st' := fst (Comm.handleDataLine settings st line) in
  Comm.currentBuilding st' = line /\
  Comm.decodedText st' =
    match Js.get Comm.MORSE_CODE_MAP line with
    | Some letter => Comm.decodedText st ++ letter
    | None => Comm.decodedText st
    end.
Proof.
  intros H st'. subst st'.
  destruct (dots_dashes_no_break _ H) as [W [L [S C]]].
  pose proof (dots_dashes_are_valid _ H) as V.
  assert (V' : Js.all Morse.isMorseChar line = true).
  { unfold Comm.isValidMorse, Morse.isValidMorse in V.
    apply andb_true_iff in V as [_ V]. exact V. }
  unfold Comm.handleDataLine. rewrite handleDataLineWith_state.
  assert (E : Js.isEmpty line = false).
  { destruct line; [discriminate H | reflexivity]. }
  rewrite E. unfold Comm.dispatch. rewrite W, L, (dots_dashes_are_valid _ H).
  cbn [fst]. split; [reflexivity|]. cbn [Comm.decodedText].
  rewrite appendDecoded_guard. unfold Comm.decodeMorse.
  rewrite decodeMorseOver_tokens, (tokens_clean _ C).
  cbn [map]. rewrite join_empty_singleton. unfold Morse.decodeLetter.
  rewrite S, (get_pattern _ _ V').
  destruct (Js.own Comm.MORSE_CODE_MAP line) as [v|] eqn:G; [|reflexivity].
  apply own_In in G.
  destruct (proj1 (Forall_forall _ _) MORSE_CODE_MAP_letters _ G) as [T Q].
  cbn [snd] in T, Q. cbn [Js.orElse]. rewrite T, Q. reflexivity.
Qed.

Lemma pattern_line_decoded_at_once_witness :
  Comm.decodedText
    (fst (Comm.handleDataLine (Comm.mkSettings false) (Comm.mkState "" "S")
            "---")) = "SO" /\
  Comm.decodedText
    (fst (Comm.handleDataLine (Comm.mkSettings false) (Comm.mkState "" "S")
            "-.-.-.-")) = "S".
Proof.
  split.
  - exact (proj2 (pattern_line_decoded_at_once (Comm.mkSettings false)
                    (Comm.mkState "" "S") "---" eq_refl)).
  - exact (proj2 (pattern_line_decoded_at_once (Comm.mkSettings false)
                    (Comm.mkState "" "S") "-.-.-.-" eq_refl)).
Defined.

(** ** The serial transformer on a stream *)

Section StreamFacts.
Import Js Comm.

Lemma split_no_sep sep s : includes sep s = false -> split sep s = [s].
Proof.
  induction s as [|c r IH]; [reflexivity|]. simpl.
  destruct (Ascii.eqb c sep); [discriminate|]. simpl.
  intros H. rewrite (IH H). reflexivity.
Qed.

Lemma split_parts_no_sep sep s :
  Forall (fun part => includes sep part = false) (split sep s).
Proof.
  induction s as [|c r IH]; simpl; [repeat constructor|].
  destruct (Ascii.eqb c sep) eqn:E; [constructor; [reflexivity | exact IH]|].
  destruct (split sep r) as [|h t]; [repeat constructor; simpl; rewrite E; reflexivity|].
  inversion IH; subst. constructor; [|assumption]. simpl. rewrite E. assumption.
Qed.

Lemma last_in_list (l : list string) d : l <> [] -> In (last l d) l.
Proof.
  induction l as [|x l IH]; [congruence|]. intros _.
  destruct l as [|y l]; [left; reflexivity|].
  right. apply IH. discriminate.
Qed.

Lemma last_app_right (l1 l2 : list string) d :
  l2 <> [] -> last (l1 ++ l2)%list d = last l2 d.
Proof.
  intros H. induction l1 as [|x l1 IH]; [reflexivity|].
  cbn [app]. destruct (l1 ++ l2)%list eqn:E; [|exact IH].
  apply app_eq_nil in E as [_ E]. congruence.
Qed.

(** Splitting a text that continues: the parts before the last separator
    stay, the last part goes on with the continuation. *)
Lemma split_app sep a b :
  split sep (a ++ b) =
  (removelast (split sep a) ++ split sep (last (split sep a) "" ++ b))%list.
Proof.
  induction a as [|c a IH]; [reflexivity|]. simpl.
  pose proof (split_not_nil sep a) as N.
  destruct (Ascii.eqb c sep) eqn:E.
  - destruct (split sep a) as [|h t] eqn:S; [congruence|].
    rewrite IH. reflexivity.
  - rewrite IH. destruct (split sep a) as [|h [|h' t]] eqn:S; [congruence| |].
    + cbn. rewrite E. reflexivity.
    + cbn [consHead removelast last app]. reflexivity.
Qed.

Lemma lineList_app a b : lineList (a ++ b)%list = (lineList a ++ lineList b)%list.
Proof. unfold lineList. rewrite map_app, filter_app. reflexivity. Qed.

Lemma flush_lineList t : flush t = lineList [chunks t].
Proof. unfold flush, lineList. simpl. destruct (truthy (trim (chunks t))); reflexivity. Qed.

(** What the transformer has enqueued and what it holds back after any
    sequence of chunks, in terms of the whole text received. *)
Lemma pipeThrough_stream input :
  forall t, includes LF (chunks t) = false ->
  pipeThrough t input =
  (mkTransformer (last (split LF (chunks t ++ join "" input)) ""),
   lineList (removelast (split LF (chunks t ++ join "" input)))).
Proof.
  induction input as [|chunk rest IH]; intros [buffer] H; cbn [chunks] in *.
  - cbn [pipeThrough]. change (join "" []) with "".
    rewrite string_app_empty, (split_no_sep _ _ H). reflexivity.
  - cbn [pipeThrough]. unfold transform at 1. cbn [chunks].
    set (lines := split LF (buffer ++ chunk)).
    assert (N : lines <> []) by apply split_not_nil.
    assert (B : includes LF (last lines "") = false).
    { apply (proj1 (Forall_forall _ _) (split_parts_no_sep LF (buffer ++ chunk))).
      apply last_in_list, N. }
    rewrite (IH (mkTransformer (last lines "")) B). cbn [chunks].
    rewrite join_empty_cons, <- string_app_assoc.
    rewrite (split_app LF (buffer ++ chunk) (join "" rest)). fold lines.
    pose proof (split_not_nil LF (last lines "" ++ join "" rest)) as M.
    rewrite (last_app_right _ _ _ M), (removelast_app _ M), lineList_app.
    reflexivity.
Qed.

Lemma lineList_settled parts : Forall settled (lineList parts).
Proof. apply trimmed_lines_settled. Qed.

Lemma includes_trimStart c s :
  includes c s = false -> includes c (trimStart s) = false.
Proof.
  induction s as [|a r IH]; [reflexivity|]. simpl.
  destruct (isWhiteSpace a); [|simpl; auto].
  intros H. apply orb_false_iff in H as [_ H]. auto.
Qed.

Lemma includes_trimEnd c s :
  includes c s = false -> includes c (trimEnd s) = false.
Proof.
  induction s as [|a r IH]; [reflexivity|]. simpl.
  intros H. apply orb_false_iff in H as [A H].
  destruct (isWhiteSpace a && isEmpty (trimEnd r)); [reflexivity|].
  simpl. rewrite A, (IH H). reflexivity.
Qed.

Lemma lineList_wellFormed s : Forall wellFormed (lineList (split LF s)).
Proof.
  apply Forall_forall. intros x H. unfold lineList in H.
  apply filter_In in H as [H T]. apply in_map_iff in H as [y [<- Y]].
  split; [exact T|]. split; [apply trim_idem|].
  apply includes_trimEnd, includes_trimStart.
  exact (proj1 (Forall_forall _ _) (split_parts_no_sep LF s) _ Y).
Qed.

Lemma Forall_removelast {A} (P : A -> Prop) l :
  Forall P l -> Forall P (removelast l).
Proof.
  induction 1 as [|x l X H IH]; [constructor|].
  destruct l; [constructor|]. cbn [removelast]. constructor; assumption.
Qed.

Lemma lineList_removelast_wellFormed s :
  Forall wellFormed (lineList (removelast (split LF s))).
Proof.
  apply Forall_forall. intros x H. unfold lineList in H.
  apply filter_In in H as [H T]. apply in_map_iff in H as [y [<- Y]].
  split; [exact T|]. split; [apply trim_idem|].
  apply includes_trimEnd, includes_trimStart.
  exact (proj1 (Forall_forall _ _)
           (Forall_removelast _ _ (split_parts_no_sep LF s)) _ Y).
Qed.

Lemma serialLines_open input :
  serialLines false input = lineList (removelast (split LF (join "" input))).
Proof.
  unfold serialLines.
  rewrite (pipeThrough_stream input newTransformer eq_refl). cbn [chunks newTransformer].
  change ("" ++ join "" input) with (join "" input).
  rewrite app_nil_r. apply settled_again, lineList_settled.
Qed.

Lemma serialLines_closed input :
  serialLines true input = lineList (split LF (join "" input)).
Proof.
  unfold serialLines.
  rewrite (pipeThrough_stream input newTransformer eq_refl). cbn [chunks newTransformer].
  change ("" ++ join "" input) with (join "" input).
  rewrite flush_lineList. cbn [chunks]. rewrite <- lineList_app.
  rewrite <- (app_removelast_last "" (split_not_nil LF (join "" input))).
  apply settled_again, lineList_settled.
Qed.

End StreamFacts.

(** X9: once the stream has ended, the serial path has passed on exactly the
    trimmed non-empty lines of the whole text received, however the text was
    cut into chunks: two chunk sequences with the same concatenation give
    the same lines, before and after the end of the stream. *)
Theorem serial_lines_ignore_chunking :
  (forall input,
     Comm.serialLines true input = Comm.bluetoothLines (Js.join "" input)) /\
  (forall closed input input',
     Js.join "" input' = Js.join "" input ->
     Comm.serialLines closed input' = Comm.serialLines closed input).
Proof.
  split.
  - intros input. apply serialLines_closed.
  - intros [|] input input' H.
    + rewrite !serialLines_closed, H. reflexivity.
    + rewrite !serialLines_open, H. reflexivity.
Qed.

Lemma serial_lines_ignore_chunking_witness :
  Comm.serialLines true ["."; String "-" (String Comm.LF "/"); ""] =
  Comm.serialLines true [String "." (String "-" (String Comm.LF "")); "/"].
Proof.
  exact (proj2 serial_lines_ignore_chunking true
           [String "." (String "-" (String Comm.LF "")); "/"]
           ["."; String "-" (String Comm.LF "/"); ""] eq_refl).
Defined.

(** X10: while the stream is open the serial path passes on the lines that a
    line feed has ended and holds back the text after the last line feed;
    when the stream ends that text follows as the last line, unless it is
    blank. *)
Theorem serial_holds_back_unfinished_line input :
  Comm.serialLines false input =
    lineList (removelast (Js.split Comm.LF (Js.join "" input))) /\
  Comm.serialLines true input =
    (Comm.serialLines false input ++
     lineList [last (Js.split Comm.LF (Js.join "" input)) ""])%list.
Proof.
  split; [apply serialLines_open|].
  rewrite serialLines_open, serialLines_closed, <- lineList_app.
  rewrite <- (app_removelast_last "" (split_not_nil Comm.LF (Js.join "" input))).
  reflexivity.
Qed.

(** X11: the Bluetooth handler treats each notification as the serial path
    treats a chunk that ends with a line feed: a sequence of notifications
    gives the lines the serial path gives for the same payloads with a line
    feed after each. *)
Theorem notification_is_a_finished_chunk closed input :
  Comm.bluetoothForwarded input =
  Comm.serialLines closed (map (fun chunk => chunk ++ String Comm.LF "") input).
Proof. apply notification_ends_a_line. Qed.

(** X12: whatever the chunks, the interpreter never gets an empty line, a
    line with white space at either end or a line with a line feed in it,
    from the serial path or from the Bluetooth handler. *)
Theorem transports_deliver_well_formed_lines closed input :
  Forall wellFormed (Comm.serialLines closed input) /\
  Forall wellFormed (Comm.bluetoothForwarded input).
Proof.
  split.
  - destruct closed.
    + rewrite serialLines_closed. apply lineList_wellFormed.
    + rewrite serialLines_open. apply lineList_removelast_wellFormed.
  - unfold Comm.bluetoothForwarded. induction input as [|chunk rest IH].
    + constructor.
    + cbn [flat_map]. apply Forall_app. split; [|exact IH].
      apply lineList_wellFormed.
Qed.

(** ** Words, manual entry and saving *)

Section WordFacts.
Import Js Reading.

Lemma splitRuns_tokens s :
  trimEnd s = s -> s <> "" -> splitRunsFrom true s = tokens s.
Proof.
  induction s as [|c r IH]; intros T N; [congruence|].
  cbn [trimEnd] in T. cbn [splitRunsFrom tokens].
  destruct (isWhiteSpace c) eqn:W; cbn [andb] in T.
  - destruct (isEmpty (trimEnd r)) eqn:E; [discriminate T|].
    injection T as T. apply IH; [exact T|].
    intros ->. discriminate E.
  - injection T as T. destruct r as [|d r']; [reflexivity|].
    specialize (IH T ltac:(discriminate)).
    cbn [atBoundary]. cbn [splitRunsFrom tokens] in IH |- *.
    destruct (isWhiteSpace d) eqn:D.
    + rewrite IH. reflexivity.
    + rewrite IH. reflexivity.
Qed.

Lemma trim_starts_clean s :
  truthy (trim s) = true -> atBoundary (trim s) = false.
Proof.
  unfold trim. intros H.
  destruct (trimStart s) as [|c r] eqn:E; [discriminate H|].
  assert (W : isWhiteSpace c = false).
  { destruct (isWhiteSpace c) eqn:W; [|reflexivity].
    pose proof (trimStart_head s) as T. rewrite E in T.
    specialize (T W). discriminate T. }
  cbn [trimEnd]. rewrite W. exact W.
Qed.

Lemma splitWhiteSpace_trim s :
  truthy (trim s) = true -> splitWhiteSpace (trim s) = tokens s.
Proof.
  intros H. rewrite <- (tokens_trim s).
  pose proof (trim_starts_clean s H) as B.
  assert (T : trimEnd (trim s) = trim s) by apply trimEnd_idem.
  destruct (trim s) as [|c r] eqn:E; [discriminate H|].
  rewrite <- (splitRuns_tokens _ T ltac:(discriminate)).
  unfold splitWhiteSpace. simpl in B. cbn [splitRunsFrom]. rewrite B.
  reflexivity.
Qed.

Lemma blank_no_tokens s : truthy (trim s) = false -> tokens s = [].
Proof.
  intros H. rewrite <- tokens_trim.
  destruct (trim s); [reflexivity | discriminate H].
Qed.

Lemma consHead_length c l : l <> [] -> List.length (consHead c l) = List.length l.
Proof. destruct l; [congruence | reflexivity]. Qed.

Lemma tokens_count s :
  2 * List.length (tokens s) <=
  String.length s + (if atBoundary s then 0 else 1).
Proof.
  induction s as [|c r IH]; [simpl; lia|].
  cbn [tokens atBoundary String.length].
  destruct (isWhiteSpace c) eqn:W.
  - destruct (atBoundary r); lia.
  - destruct (atBoundary r) eqn:B.
    + cbn [List.length]. lia.
    + rewrite (consHead_length _ _ (tokens_not_nil _ B)). lia.
Qed.

Lemma splitRunsOf_none p s :
  all (fun c => negb (p c)) s = true -> Text.splitRunsOf p false s = [s].
Proof.
  induction s as [|c r IH]; [reflexivity|]. simpl.
  destruct (p c); [discriminate|]. simpl. intros H. rewrite (IH H). reflexivity.
Qed.

Lemma tokens_are_clean s : Forall (fun t => clean t = true) (tokens s).
Proof.
  induction s as [|c r IH]; [constructor|]. cbn [tokens].
  destruct (isWhiteSpace c) eqn:W; [exact IH|].
  destruct (atBoundary r).
  - constructor; [|exact IH]. unfold clean. simpl. rewrite W. reflexivity.
  - destruct (tokens r) as [|h t]; simpl.
    + constructor; [|constructor]. unfold clean. simpl. rewrite W. reflexivity.
    + inversion IH as [|? ? H T]; subst. constructor; [|exact T].
      unfold clean in *. simpl. rewrite W. simpl.
      apply andb_true_iff in H as [_ H]. exact H.
Qed.

Lemma tokens_all p s :
  all p s = true -> Forall (fun t => all p t = true) (tokens s).
Proof.
  induction s as [|c r IH]; [constructor|]. cbn [tokens]. simpl.
  intros H. apply andb_true_iff in H as [C H]. specialize (IH H).
  destruct (isWhiteSpace c); [exact IH|].
  destruct (atBoundary r).
  - constructor; [|exact IH]. simpl. rewrite C. reflexivity.
  - destruct (tokens r) as [|h t]; simpl.
    + constructor; [|constructor]. simpl. rewrite C. reflexivity.
    + inversion IH as [|? ? X T]; subst. constructor; [|exact T].
      simpl. rewrite C, X. reflexivity.
Qed.

Lemma getTextStatistics_words text :
  Text.words (Text.getTextStatistics (Str text)) = List.length (tokens text).
Proof.
  destruct text as [|c r]; [reflexivity|].
  cbn [Text.getTextStatistics isEmpty Text.words].
  destruct (truthy (trim (String c r))) eqn:T.
  - rewrite (splitWhiteSpace_trim _ T). reflexivity.
  - rewrite (blank_no_tokens _ T). reflexivity.
Qed.

End WordFacts.

(** X13: [getTextStatistics] counts as words the white-space separated
    tokens of the text and as characters its length, so that a text of [n]
    words has at least [2n - 1] characters; a text without [.], [!] and [?]
    counts as one sentence, or none when it is blank; anything that is not
    a string has no characters, words or sentences. *)
Theorem statistics_count_tokens :
  (forall text,
     Text.characters (Text.getTextStatistics (Js.Str text)) = String.length text /\
     Text.words (Text.getTextStatistics (Js.Str text)) =
       List.length (Reading.tokens text) /\
     2 * Text.words (Text.getTextStatistics (Js.Str text)) <=
       Text.characters (Text.getTextStatistics (Js.Str text)) + 1) /\
  (forall text,
     Js.all (fun c => negb (Text.isSentenceEnd c)) text = true ->
     Text.sentences (Text.getTextStatistics (Js.Str text)) =
       if Js.truthy (Js.trim text) then 1 else 0) /\
  (forall v, (forall s, v <> Js.Str s) ->
     Text.getTextStatistics v = Text.mkStatistics 0 0 0).
Proof.
  split; [|split].
  - intros text.
    pose proof (getTextStatistics_words text) as W.
    assert (C : Text.characters (Text.getTextStatistics (Js.Str text)) =
                String.length text) by (destruct text; reflexivity).
    rewrite W, C. repeat split.
    pose proof (tokens_count text). destruct (Reading.atBoundary text); lia.
  - intros text H. destruct text as [|c r]; [reflexivity|].
    cbn [Text.getTextStatistics Js.isEmpty Text.sentences].
    rewrite (splitRunsOf_none _ _ H). cbn [filter].
    destruct (Js.trim (String c r)); reflexivity.
  - intros v H. destruct v; try reflexivity. exfalso. exact (H s eq_refl).
Qed.

Lemma statistics_count_tokens_witness :
  Text.sentences (Text.getTextStatistics (Js.Str "  HI  YOU ")) = 1.
Proof.
  exact (proj1 (proj2 statistics_count_tokens) "  HI  YOU " eq_refl).
Defined.

Section ManualFacts.
Import Js Comm Reading.

Lemma manualToken_adds decode addedText token :
  manualToken decode addedText token =
  addedText ++ manualToken decode "" token.
Proof.
  unfold manualToken.
  destruct (String.eqb token "/" || String.eqb token "SPACE"); [reflexivity|].
  destruct (isValidMorse (Str token)); [reflexivity|].
  symmetry. apply string_app_empty.
Qed.

Lemma fold_manualToken decode l addedText :
  fold_left (manualToken decode) l addedText =
  addedText ++ join "" (map (manualToken decode "") l).
Proof.
  revert addedText. induction l as [|t l IH]; intros addedText.
  - symmetry. apply string_app_empty.
  - cbn [fold_left map]. rewrite IH, join_empty_cons, <- string_app_assoc.
    rewrite <- manualToken_adds. reflexivity.
Qed.

Lemma manualAdds_pattern token :
  clean token = true -> all Morse.isMorseChar token = true ->
  manualAdds token = Morse.decodeLetter MORSE_CODE_MAP token.
Proof.
  intros C A. unfold manualAdds, manualToken.
  destruct (String.eqb_spec token "/") as [->|_]; [reflexivity|].
  destruct (String.eqb_spec token "SPACE") as [->|_]; [discriminate A|].
  cbn [orb]. unfold isValidMorse, Morse.isValidMorse. rewrite A.
  unfold clean in C. apply andb_true_iff in C as [T N]. rewrite T.
  cbn [andb append]. unfold decodeMorse.
  rewrite decodeMorseOver_tokens, tokens_clean; [reflexivity|].
  unfold clean. rewrite T, N. reflexivity.
Qed.

Lemma trimEnd_clean t : clean t = true -> trimEnd t = t.
Proof.
  unfold clean. intros H. apply andb_true_iff in H as [_ A].
  induction t as [|c r IH]; [reflexivity|]. simpl in *.
  apply andb_true_iff in A as [C A]. apply negb_true_iff in C.
  rewrite C, (IH A). reflexivity.
Qed.

Lemma trimEnd_app a t :
  trimEnd t = t -> t <> "" -> trimEnd (a ++ t) = a ++ t.
Proof.
  intros T N. induction a as [|c a IH]; [exact T|].
  cbn [append trimEnd]. rewrite IH.
  destruct (a ++ t) eqn:E.
  - destruct a; [simpl in E; congruence | discriminate E].
  - cbn [isEmpty]. rewrite andb_false_r. reflexivity.
Qed.

Lemma clean_starts t : clean t = true -> atBoundary t = false.
Proof.
  unfold clean. destruct t as [|c r]; [discriminate|]. simpl.
  intros H. apply andb_true_iff in H as [C _]. apply negb_true_iff in C.
  exact C.
Qed.

Lemma trim_clean_end a t :
  atBoundary a = false -> clean t = true -> trim (a ++ t) = a ++ t.
Proof.
  intros A C. unfold trim.
  rewrite (trimStart_fixed (a ++ t)).
  - apply trimEnd_app; [apply trimEnd_clean, C|].
    intros ->. discriminate C.
  - right. destruct a; [discriminate A | exact A].
Qed.

Lemma join_space_snoc x l t :
  join " " ((x :: l) ++ [t])%list = join " " (x :: l) ++ " " ++ t.
Proof.
  revert x. induction l as [|y l IH]; intros x; [reflexivity|].
  cbn [app]. rewrite !join_cons. cbn [app] in IH. rewrite IH.
  rewrite !string_app_assoc. reflexivity.
Qed.

Lemma join_space_starts x l :
  clean x = true -> atBoundary (join " " (x :: l)) = false.
Proof.
  intros C. pose proof (clean_starts _ C) as B.
  destruct l; [exact B|]. rewrite join_cons.
  destruct x; [discriminate B | exact B].
Qed.

(** The entry field after a token has been added to a field that holds
    tokens joined by single spaces. *)
Lemma addToManualInput_token prev t :
  Forall (fun x => clean x = true) prev -> clean t = true ->
  Page.addToManualInput (Some (join " " prev)) t =
  Some (join " " (prev ++ [t])%list).
Proof.
  intros P C. unfold Page.addToManualInput.
  destruct (String.eqb_spec t " ") as [->|_]; [discriminate C|].
  f_equal. destruct prev as [|x l].
  - change (join " " []) with "". cbn [append app].
    unfold trim. cbn [trimStart isWhiteSpace]. simpl trimStart.
    rewrite (trimStart_fixed t) by (right; apply clean_starts, C).
    change (join " " [t]) with t. apply trimEnd_clean, C.
  - rewrite join_space_snoc. inversion P; subst.
    rewrite <- string_app_assoc. apply trim_clean_end; [|exact C].
    pose proof (join_space_starts x l ltac:(assumption)) as B.
    destruct (join " " (x :: l)); [discriminate B | exact B].
Qed.

End ManualFacts.

Section ManualEntryFacts.
Import Js Comm Reading.

Lemma addManualInput_tokens content st :
  fst (addManualInput (Some content) st) =
  mkState (currentBuilding st)
    (decodedText st ++ join "" (map manualAdds (tokens content))).
Proof.
  destruct st as [building text].
  unfold addManualInput, addManualInputWith.
  cbn [currentBuilding decodedText].
  destruct (isEmpty (trim content)) eqn:E.
  - rewrite blank_no_tokens by (unfold truthy; rewrite E; reflexivity).
    change (join "" (map manualAdds [])) with "".
    rewrite string_app_empty. reflexivity.
  - rewrite splitWhiteSpace_trim by (unfold truthy; rewrite E; reflexivity).
    rewrite fold_manualToken. cbn [append].
    change (map (manualToken decodeMorse "")) with (map manualAdds).
    destruct (join "" (map manualAdds (tokens content)));
      [rewrite string_app_empty|]; reflexivity.
Qed.

End ManualEntryFacts.

(** X14: [addManualInput] cuts the text of the entry field into its
    white-space separated tokens and appends to [decodedText] what each
    token adds, in order; [currentBuilding] stays.  For a text that passes
    [isValidMorse] what it appends is what [decodeMorse] returns for the
    whole text, question marks included. *)
Theorem manual_entry_by_tokens :
  (forall content st,
     fst (Comm.addManualInput (Some content) st) =
     Comm.mkState (Comm.currentBuilding st)
       (Comm.decodedText st ++
        Js.join "" (map manualAdds (Reading.tokens content)))) /\
  (forall content st,
     Comm.isValidMorse (Js.Str content) = true ->
     fst (Comm.addManualInput (Some content) st) =
     Comm.mkState (Comm.currentBuilding st)
       (Comm.decodedText st ++ Comm.decodeMorse (Js.Str content))).
Proof.
  split; [exact addManualInput_tokens|].
  intros content st V. rewrite addManualInput_tokens. do 2 f_equal.
  unfold Comm.decodeMorse at 1. rewrite decodeMorseOver_tokens. f_equal.
  unfold Comm.isValidMorse, Morse.isValidMorse in V.
  apply andb_true_iff in V as [_ A].
  pose proof (tokens_are_clean content) as C.
  pose proof (tokens_all _ _ A) as M.
  induction (Reading.tokens content) as [|t l IH]; [reflexivity|].
  inversion C; inversion M; subst. cbn [map].
  rewrite manualAdds_pattern by assumption. f_equal. apply IH; assumption.
Qed.

Lemma manual_entry_by_tokens_witness :
  fst (Comm.addManualInput (Some " ... ---  ... / ...... ")
         (Comm.mkState "-" "HI "))
  = Comm.mkState "-" ("HI " ++ Comm.decodeMorse (Js.Str " ... ---  ... / ...... ")).
Proof.
  exact (proj2 manual_entry_by_tokens " ... ---  ... / ...... "
           (Comm.mkState "-" "HI ") eq_refl).
Defined.

(** X15: tokens put into an empty entry field one by one with
    [addToManualInput], each of them not empty and free of white space, end
    up joined by single spaces; submitting the field with [addManualInput]
    then handles exactly these tokens, in the order they were added. *)
Theorem manual_field_keeps_tokens tokens :
  Forall (fun t => clean t = true) tokens ->
  fold_left Page.addToManualInput tokens (Some "") =
    Some (Js.join " " tokens) /\
  (forall st,
     option_map
       (fun content => fst (Comm.addManualInput (Some content) st))
       (fold_left Page.addToManualInput tokens (Some "")) =
     Some (Comm.mkState (Comm.currentBuilding st)
             (Comm.decodedText st ++ Js.join "" (map manualAdds tokens)))).
Proof.
  intros H.
  assert (F : forall prev,
             Forall (fun t => clean t = true) prev ->
             fold_left Page.addToManualInput tokens (Some (Js.join " " prev)) =
             Some (Js.join " " (prev ++ tokens)%list)).
  { induction H as [|t l T _ IH]; intros prev P.
    - rewrite app_nil_r. reflexivity.
    - cbn [fold_left]. rewrite (addToManualInput_token _ _ P T).
      rewrite IH by (apply Forall_app; split; [exact P | repeat constructor; exact T]).
      rewrite <- app_assoc. reflexivity. }
  specialize (F [] (Forall_nil _)). cbn [app] in F.
  change (Js.join " " []) with "" in F.
  split; [exact F|].
  intros st. rewrite F. cbn [option_map].
  rewrite addManualInput_tokens, (tokens_join _ H). reflexivity.
Qed.

Lemma manual_field_keeps_tokens_witness :
  fold_left Page.addToManualInput [".-"; "/"; "-..."] (Some "") =
  Some ".- / -...".
Proof.
  refine (proj1 (manual_field_keeps_tokens [".-"; "/"; "-..."] _)).
  repeat constructor.
Defined.

(** X16: saving without a loaded [saveMessage] stores nothing when
    [decodedText] is blank.  Otherwise the new message, whose text is the
    trimmed [decodedText] and whose word count is the number of its tokens,
    comes first, the messages stored before follow in their order, and no
    more than 100 messages are kept. *)
Theorem save_keeps_newest_hundred messageId now today silent messages st :
  let kept :=
    fst (Page.saveCurrentMessage messageId now today silent messages st) in
  (Reading.tokens (Comm.decodedText st) = [] -> kept = messages) /\
  (Reading.tokens (Comm.decodedText st) <> [] ->
   exists message,
     kept = message :: firstn 99 messages /\
     Page.text message = Js.trim (Comm.decodedText st) /\
     Text.words (Page.stats message) =
       List.length (Reading.tokens (Comm.decodedText st)) /\
     List.length kept <= 100).
Proof.
  intros kept. subst kept. unfold Page.saveCurrentMessage.
  destruct (Js.isEmpty (Js.trim (Comm.decodedText st))) eqn:E.
  - split; [reflexivity|]. intros N. exfalso. apply N.
    apply blank_no_tokens. unfold Js.truthy. rewrite E. reflexivity.
  - split.
    + intros T. rewrite <- tokens_trim in T.
      destruct (Js.trim (Comm.decodedText st)) as [|c r] eqn:D;
        [discriminate E|].
      pose proof (trim_starts_clean (Comm.decodedText st)) as B.
      rewrite D in B. specialize (B eq_refl).
      exfalso. exact (tokens_not_nil _ B T).
    + intros _. cbn [fst].
      exists (Page.mkMessage messageId (Js.trim (Comm.decodedText st))
                (Js.trim (Comm.decodedText st)) false "en" now today
                (Text.getTextStatistics
                   (Js.Str (Js.trim (Comm.decodedText st))))).
      split; [|split; [reflexivity|split]].
      * cbn [List.length].
        destruct (100 <? S (List.length messages))%nat eqn:L.
        -- reflexivity.
        -- apply Nat.ltb_ge in L. rewrite firstn_all2 by lia. reflexivity.
      * cbn [Page.stats]. rewrite getTextStatistics_words.
        apply f_equal, tokens_trim.
      * cbn [List.length].
        destruct (100 <? S (List.length messages))%nat eqn:L.
        -- rewrite length_firstn. cbn [List.length]. lia.
        -- apply Nat.ltb_ge in L. cbn [List.length]. lia.
Qed.

Lemma save_keeps_newest_hundred_witness :
  exists message,
    fst (Page.saveCurrentMessage "msg_1" 1 "today" true []
           (Comm.mkState "" " HI YOU ")) = message :: firstn 99 [] /\
    Page.text message = Js.trim " HI YOU " /\
    Text.words (Page.stats message) = List.length (Reading.tokens " HI YOU ") /\
    List.length
      (fst (Page.saveCurrentMessage "msg_1" 1 "today" true []
              (Comm.mkState "" " HI YOU "))) <= 100.
Proof.
  refine (proj2 (save_keeps_newest_hundred "msg_1" 1 "today" true []
                   (Comm.mkState "" " HI YOU ")) _).
  discriminate.
Defined.

(** X4: [decodeMorse] returns exactly one character for each white-space
    separated token of its argument, known or not, as long as no token names
    a member the table inherits: the length of the result is then the
    number of tokens.  This is so for every text that passes
    [isValidMorse].  The same holds for the copy in communication.js. *)
Theorem decode_one_character_per_token :
  (forall s,
     Forall (fun token => Js.own Js.objectPrototype token = None)
            (Reading.tokens s) ->
     String.length (Morse.decodeMorse (Js.Str s)) =
       List.length (Reading.tokens s) /\
     String.length (Comm.decodeMorse (Js.Str s)) =
       List.length (Reading.tokens s)) /\
  (forall s,
     Morse.isValidMorse (Js.Str s) = true ->
     String.length (Morse.decodeMorse (Js.Str s)) =
       List.length (Reading.tokens s) /\
     String.length (Comm.decodeMorse (Js.Str s)) =
       List.length (Reading.tokens s)).
Proof.
  assert (G : forall s,
     Forall (fun token => Js.own Js.objectPrototype token = None)
            (Reading.tokens s) ->
     String.length (Morse.decodeMorse (Js.Str s)) =
       List.length (Reading.tokens s) /\
     String.length (Comm.decodeMorse (Js.Str s)) =
       List.length (Reading.tokens s)).
  { intros s H. unfold Morse.decodeMorse, Comm.decodeMorse.
    rewrite !decodeMorseOver_tokens.
    split; apply join_units_length;
      apply Forall_forall; intros x X;
      pose proof (proj1 (Forall_forall _ _) H _ X) as P.
    - apply decodeLetter_length; [apply MORSE_CODE_units | exact P].
    - apply decodeLetter_length; [apply MORSE_CODE_MAP_units | exact P]. }
  split; [exact G|].
  intros s V. apply G.
  unfold Morse.isValidMorse in V. apply andb_true_iff in V as [_ A].
  pose proof (tokens_all _ _ A) as T.
  apply Forall_forall. intros x X.
  apply pattern_not_inherited. exact (proj1 (Forall_forall _ _) T _ X).
Qed.

Lemma decode_one_character_per_token_witness :
  String.length (Morse.decodeMorse (Js.Str " ... ---  ...... / ")) = 4 /\
  String.length (Morse.decodeMorse (Js.Str "SOS ... toString.")) = 3.
Proof.
  split.
  - exact (proj1 (proj2 decode_one_character_per_token
                    " ... ---  ...... / " eq_refl)).
  - refine (proj1 (proj1 decode_one_character_per_token
                     "SOS ... toString." _)).
    apply Forall_forall. intros token H. vm_compute in H.
    destruct H as [<-|[<-|[<-|[]]]]; vm_compute; reflexivity.
Defined.
